(** * Changelog CI: a shallow embedding of [scripts/changelog-ci.py]

    The script builds a changelog section from the pull requests merged
    since the latest release and prepends it to the changelog file.  This
    development embeds its functions in Rocq and proves the properties its
    specification states about them.

    Modelling conventions.
    - A Python [str] is a [string]; one [ascii] stands for one character.
    - A Python [int] is a [Z].
    - JSON documents loaded with [json.load] are values of type [json];
      [self.config] is such a document.
    - A file opened in text mode is a buffer with a stream position; what
      is read from it has its line ends translated, as Python does on
      every platform, and what is written is written as it is, as Python
      does where the line separator is the line feed.
    - State (the file system, and the trace of log records and calls of
      [open]) is threaded through a small state-and-exception monad;
      functions that only compute or raise return a [result]. *)

From Stdlib Require Import ZArith Lia Strings.String Strings.Ascii.
From Stdlib Require Import Numbers.DecimalString.
From stdpp Require Import base list strings gmap.

Set Warnings "-register-all".

Local Open Scope Z_scope.
Local Open Scope nat_scope.

(** ** Python strings *)

Module Py.

(** The line feed character, Python's ['\n']. *)
Definition LF : string := String "010"%char "".


(** The double quote character. *)
Definition QUOTE : string := String "034"%char "".

(** [str(n)] and ["{}".format(n)] for an [int]. *)
Definition str_of_int (n : Z) : string :=
  NilZero.string_of_int (Z.to_int n).

(** Truth value of a [str]: only the empty string is false. *)
Definition truthy_str (s : string) : bool :=
  match s with
  | EmptyString => false
  | String _ _ => true
  end.

(** Truth value of a [list]. *)
Definition truthy_list {A} (l : list A) : bool :=
  match l with
  | [] => false
  | _ :: _ => true
  end.

(** [c.lower()] on the characters below U+0100: [A-Z] and the Latin-1
    capitals U+00C0..U+00DE, U+00D7 (the multiplication sign) apart. *)
Definition lower_char (c : ascii) : ascii :=
  let n := nat_of_ascii c in
  if (65 <=? n) && (n <=? 90) then ascii_of_nat (n + 32)
  else if (192 <=? n) && (n <=? 222) && negb (n =? 215)
       then ascii_of_nat (n + 32)
  else c.

(** [s.lower()] *)
Fixpoint lower (s : string) : string :=
  match s with
  | EmptyString => EmptyString
  | String c s' => String (lower_char c) (lower s')
  end.

(** [s.startswith(p)] *)
Fixpoint startswith (s p : string) : bool :=
  match p, s with
  | EmptyString, _ => true
  | String _ _, EmptyString => false
  | String a p', String b s' =>
      if Ascii.eqb a b then startswith s' p' else false
  end.

(** [s.split(sep)] for a separator of one character: the string is cut at
    every occurrence of [sep], so two adjacent separators enclose an empty
    element and the result always has at least one element. *)
Fixpoint split (sep : ascii) (s : string) : list string :=
  match s with
  | EmptyString => [EmptyString]
  | String c s' =>
      if Ascii.eqb c sep then EmptyString :: split sep s'
      else match split sep s' with
           | [] => [String c EmptyString]
           | w :: ws => String c w :: ws
           end
  end.

(** [s * n] *)
Fixpoint repeat_str (s : string) (n : nat) : string :=
  match n with
  | O => EmptyString
  | S n' => s +:+ repeat_str s n'
  end.

(** ["".join(l)], the text that [f.writelines(l)] writes. *)
Fixpoint join (l : list string) : string :=
  match l with
  | [] => EmptyString
  | s :: l' => s +:+ join l'
  end.

(** The first [n] characters, [s[:n]]. *)
Fixpoint take (n : nat) (s : string) : string :=
  match n, s with
  | S n', String c s' => String c (take n' s')
  | _, _ => EmptyString
  end.

(** All but the first [n] characters, [s[n:]]. *)
Fixpoint drop (n : nat) (s : string) : string :=
  match n, s with
  | S n', String _ s' => drop n' s'
  | _, _ => s
  end.

(** [l.remove(x)]: the first element equal to [x] is deleted.  Python
    raises [ValueError] when there is none; every call of the script
    passes an element it has just read from [l]. *)
Fixpoint remove `{EqDecision A} (x : A) (l : list A) : list A :=
  match l with
  | [] => []
  | y :: l' => if decide (x = y) then l' else y :: remove x l'
  end.

(** What reading in text mode makes of the content of a file: with
    [newline=None], the default of [open], every line end, be it a line
    feed, a carriage return or a carriage return followed by a line feed,
    is read as one line feed. *)
Fixpoint universal_newlines (s : string) : string :=
  match s with
  | EmptyString => EmptyString
  | String c s' =>
      if Ascii.eqb c "013" then
        String "010"
          match s' with
          | String c' s'' =>
              if Ascii.eqb c' "010" then universal_newlines s''
              else universal_newlines s'
          | EmptyString => EmptyString
          end
      else String c (universal_newlines s')
  end.

End Py.

(** ** Data model *)

(** One element of [group_config] in the data model of the
    specification: [{"title": ..., "labels": [...]}], with strings. *)
Record group_config_item := GroupConfig {
  gc_title : string;
  gc_labels : list string
}.

(** The configuration in the data model of the specification. *)
Record Config := MkConfig {
  header_prefix : string;
  group_config : list group_config_item
}.

(** The dictionary built for each fetched pull request, with the keys
    ['title'], ['number'], ['url'] and ['labels']. *)
Record pull_request := PullRequest {
  pr_title : string;
  pr_number : Z;
  pr_url : string;
  pr_labels : list string
}.

Global Instance group_config_item_eq_dec : EqDecision group_config_item.
Proof. solve_decision. Defined.

Global Instance pull_request_eq_dec : EqDecision pull_request.
Proof. solve_decision. Defined.

(** The ['items'] of a group are either a [list] of rendered lines, or the
    lazy iterator [map(self._get_changelog_line, pull_request_data)], which
    is true whatever it will yield and renders its lines when it is
    consumed. *)
Inductive items_t :=
| PyList (lines : list string)
| PyMap (source : list pull_request).

(** One element of the list [_parse_data] returns:
    [{'title': title, 'items': items}]. *)
Record group := Group {
  title : string;
  items : items_t
}.

(** ** Exceptions and results *)

(** The exceptions met in the script, with their argument: the message
    for those the script raises itself and for [TypeError], the key for a
    [KeyError] of a subscript, the path for the errors of [open]. *)
Inductive exn :=
| TypeError (msg : string)
| KeyError (msg : string)
| FileNotFoundError (filename : string)
| IsADirectoryError (filename : string)
| NotADirectoryError (filename : string)
| PermissionError (filename : string)
| JSONDecodeError (msg : string).

(** The outcome of a call: a value, or an exception that propagates. *)
Inductive result (A : Type) :=
| Ok (a : A)
| Raise (e : exn).
Arguments Ok {A} a.
Arguments Raise {A} e.

Global Instance result_ret : MRet result := λ A a, Ok a.

Global Instance result_bind : MBind result := λ A B k r,
  match r with
  | Ok a => k a
  | Raise e => Raise e
  end.

(** ** Documents *)

(** A document as [json.load] returns it: [None], [bool], [int], [str],
    [list] and [dict] (numbers with a fraction are left out: the script
    only ever tests a number for being zero). *)
Inductive json :=
| JNull
| JBool (b : bool)
| JInt (n : Z)
| JStr (s : string)
| JArr (l : list json)
| JObj (d : gmap string json).

(** Truth value of a loaded document, [bool(v)]. *)
Definition truthy (v : json) : bool :=
  match v with
  | JNull => false
  | JBool b => b
  | JInt n => negb (n =? 0)%Z
  | JStr s => Py.truthy_str s
  | JArr l => Py.truthy_list l
  | JObj d => negb (bool_decide (d = ∅))
  end.

(** [d.get(key)]: the value, or [None] when the key is absent. *)
Definition dict_get (d : gmap string json) (key : string) : json :=
  default JNull (d !! key).

(** [isinstance(v, list)] *)
Definition is_list (v : json) : bool :=
  match v with JArr _ => true | _ => false end.

(** [isinstance(v, dict)] *)
Definition is_dict (v : json) : bool :=
  match v with JObj _ => true | _ => false end.

(** [type(v).__name__] *)
Definition type_name (v : json) : string :=
  match v with
  | JNull => "NoneType"
  | JBool _ => "bool"
  | JInt _ => "int"
  | JStr _ => "str"
  | JArr _ => "list"
  | JObj _ => "dict"
  end.

(** [v[key]] for a key that is a string: the value under the key of a
    [dict], [KeyError] when the key is absent, [TypeError] when [v] is no
    [dict]. *)
Definition getitem (v : json) (key : string) : result json :=
  match v with
  | JObj d =>
      match d !! key with
      | Some x => Ok x
      | None => Raise (KeyError key)
      end
  | JArr _ =>
      Raise (TypeError "list indices must be integers or slices, not str")
  | JStr _ =>
      Raise (TypeError "string indices must be integers, not 'str'")
  | _ =>
      Raise (TypeError ("'" +:+ type_name v +:+ "' object is not subscriptable"))
  end.

(** What [for x in v] goes through: the elements of a [list], the
    characters of a [str], the keys of a [dict]; any other value raises
    [TypeError].  The keys are listed in the order of the map, not in the
    order of the document: the script goes through a [dict] only where
    the order does not matter. *)
Definition iterate (v : json) : result (list json) :=
  match v with
  | JArr l => Ok l
  | JStr s => Ok (map (λ c, JStr (String c "")) (list_ascii_of_string s))
  | JObj d => Ok (map (λ kv, JStr kv.1) (map_to_list d))
  | _ => Raise (TypeError ("'" +:+ type_name v +:+ "' object is not iterable"))
  end.

(** [s + v] for a [str] [s]: only a [str] can be appended to a [str]. *)
Definition str_add (s : string) (v : json) : result string :=
  match v with
  | JStr t => Ok (s +:+ t)
  | _ =>
      Raise (TypeError ("can only concatenate str (not " +:+ Py.QUOTE
                          +:+ type_name v +:+ Py.QUOTE +:+ ") to str"))
  end.

(** [v + s] for a [str] [s]. *)
Definition add_str (v : json) (s : string) : result string :=
  match v with
  | JStr t => Ok (t +:+ s)
  | JArr _ =>
      Raise (TypeError ("can only concatenate list (not " +:+ Py.QUOTE
                          +:+ "str" +:+ Py.QUOTE +:+ ") to list"))
  | _ =>
      Raise (TypeError ("unsupported operand type(s) for +: '"
                          +:+ type_name v +:+ "' and 'str'"))
  end.

(** [ChangelogCI._default_config] *)
Definition _default_config : json :=
  JObj {[ "header_prefix" := JStr "Version:"; "group_config" := JArr [] ]}.

(** ** Grouping and formatting *)

(** [ChangelogCI._get_changelog_line] *)
Definition _get_changelog_line (item : pull_request) : string :=
  "* [#" +:+ Py.str_of_int (pr_number item) +:+ "](" +:+ pr_url item
    +:+ "): " +:+ pr_title item +:+ Py.LF.

(** [label in pull_request['labels']]: the labels of a pull request are
    strings, and no value that is not a string equals a string. *)
Definition label_in (label : json) (pr : pull_request) : bool :=
  match label with
  | JStr s => bool_decide (s ∈ pr_labels pr)
  | _ => false
  end.

(** [any(label in pull_request['labels'] for label in config['labels'])] *)
Definition any_label_matches (config : json) (pr : pull_request)
  : result bool :=
  labels ← getitem config "labels";
  labels ← iterate labels;
  Ok (existsb (λ label, label_in label pr) labels).

(** The inner loop of [_parse_data],
    [for pull_request in pull_request_data: ...].

    Python iterates a list by position: the iterator holds an index [i],
    yields [pull_request_data[i]] and moves on to [i + 1], stopping when
    [i] is past the end of the list as it is at that moment.  The body
    removes elements from the very list it iterates, so the loop is modelled
    on the index and the current list.  [fuel] bounds the number of
    iterations; [scan_fuel] shows that the length of the list is enough. *)
Fixpoint scan (fuel : nat) (config : json) (i : nat)
    (pull_request_data : list pull_request) (items : list string)
  : result (list string * list pull_request) :=
  match fuel with
  | O => Ok (items, pull_request_data)
  | S fuel' =>
      match pull_request_data !! i with
      | None => Ok (items, pull_request_data)
      | Some pull_request =>
          matches ← any_label_matches config pull_request;
          if matches : bool then
            scan fuel' config (S i)
              (Py.remove pull_request pull_request_data)
              (items ++ [_get_changelog_line pull_request])
          else scan fuel' config (S i) pull_request_data items
      end
  end.

(** The outer loop of [_parse_data], [for config in group_config: ...]:
    [data] grows by one group per configured group and
    [pull_request_data] is the one list all the passes share. *)
Fixpoint parse_groups (group_config : list json)
    (pull_request_data : list pull_request) (data : list group)
  : result (list group * list pull_request) :=
  match group_config with
  | [] => Ok (data, pull_request_data)
  | config :: rest =>
      title ← getitem config "title";
      title ← str_add "#### " title;
      let title := title +:+ Py.LF +:+ Py.LF in
      '(items, pull_request_data) ←
        scan (length pull_request_data) config 0 pull_request_data [];
      parse_groups rest pull_request_data
        (data ++ [{| title := title; items := PyList items |}])
  end.

(** [ChangelogCI._parse_data], for [self.config] and the fetched list.
    The list is not modified after the lazy [map] objects are created, so
    each holds the list it will render. *)
Definition _parse_data (config : json)
    (pull_request_data : list pull_request) : result (list group) :=
  group_config ← getitem config "group_config";
  if truthy group_config then
    group_config ← iterate group_config;
    '(data, pull_request_data) ←
      parse_groups group_config pull_request_data [];
    if Py.truthy_list pull_request_data then
      Ok (data ++ [{| title := "#### Other Changes" +:+ Py.LF +:+ Py.LF;
                      items := PyMap pull_request_data |}])
    else Ok data
  else
    Ok [{| title := ""; items := PyMap pull_request_data |}].

(** The lines a group holds, as [f.writelines(items)] consumes them. *)
Definition lines_of (its : items_t) : list string :=
  match its with
  | PyList lines => lines
  | PyMap source => map _get_changelog_line source
  end.

(** Truth value of the ['items'] of a group. *)
Definition truthy_items (its : items_t) : bool :=
  match its with
  | PyList lines => Py.truthy_list lines
  | PyMap _ => true
  end.

(** ** State and the monad of the script's effects *)

Inductive level := WARNING | ERROR.

(** The mode a file is opened in. *)
Inductive file_mode :=
| ReadOnly (* 'r' *)
| ReadWrite (* 'r+' *)
| CreateReadWrite (* 'w+' *).

(** What the script does that the outside can observe, besides the files
    it leaves: the records it logs and its calls of [open]. *)
Inductive event :=
| Logged (lvl : level) (msg : string)
| Opened (filename : string) (mode : file_mode).

(** What a path leads to, as far as [open] and [os.path.exists] tell: a
    text file that the process may read and write, or something that
    [open] answers with the exception [e] in every mode.  That is a
    directory or a file of another user, which exist, or a name in a
    directory that does not exist, which does not exist either. *)
Inductive node :=
| File (content : string)
| Refused (e : exn) (exists_ : bool).

(** The state the script runs in: what the paths lead to (a path that is
    not listed does not exist and can be created), and the trace of events
    so far (latest last). *)
Record state := State {
  files : gmap string node;
  trace : list event
}.

Definition M (A : Type) : Type := state → result A * state.

Global Instance M_ret : MRet M := λ A a st, (Ok a, st).

Global Instance M_bind : MBind M := λ A B k m st,
  match m st with
  | (Ok a, st') => k a st'
  | (Raise e, st') => (Raise e, st')
  end.

Definition raise {A} (e : exn) : M A := λ st, (Raise e, st).

(** A computation without effects, in the monad. *)
Definition lift {A} (r : result A) : M A := λ st, (r, st).

Definition emit (ev : event) : M unit := λ st,
  (Ok tt, {| files := files st; trace := trace st ++ [ev] |}).

(** [logger.warning(msg)] and [logger.error(msg)], the message formatted. *)
Definition log (lvl : level) (msg : string) : M unit := emit (Logged lvl msg).

(** ** The file object *)

(** An open text file: the content of the file and the stream position. *)
Record file_obj := FileObj {
  buf : string;
  pos : nat
}.

(** [f.read()]: the text from the position to the end, its line ends
    translated; the position moves to the end. *)
Definition f_read (f : file_obj) : string * file_obj :=
  (Py.universal_newlines (Py.drop (pos f) (buf f)),
   {| buf := buf f; pos := Nat.max (pos f) (String.length (buf f)) |}).

(** [f.seek(offset, 0)] *)
Definition f_seek (offset : nat) (f : file_obj) : file_obj :=
  {| buf := buf f; pos := offset |}.

(** [f.write(s)]: [s] overwrites the content from the position on and
    extends the file where it reaches past the end; a position past the
    end is first filled up with NUL characters.  Nothing is cut off: what
    the file holds behind the text written stays. *)
Definition f_write (s : string) (f : file_obj) : file_obj :=
  {| buf := Py.take (pos f) (buf f)
              +:+ Py.repeat_str (String "000"%char "")
                    (pos f - String.length (buf f))
              +:+ s
              +:+ Py.drop (pos f + String.length s) (buf f);
     pos := pos f + String.length s |}.

(** [f.writelines(lines)] *)
Definition f_writelines (lines : list string) (f : file_obj) : file_obj :=
  fold_left (λ f line, f_write line f) lines f.

(** [os.path.exists(filename)] *)
Definition path_exists (filename : string) : M bool := λ st,
  (Ok match files st !! filename with
      | Some (File _) => true
      | Some (Refused _ exists_) => exists_
      | None => false
      end, st).

(** [open(filename, mode)]: ['r'] and ['r+'] need the file to exist,
    ['w+'] creates it or empties it. *)
Definition open_ (filename : string) (mode : file_mode) : M file_obj :=
  λ st,
  let st' := {| files := files st;
                trace := trace st ++ [Opened filename mode] |} in
  match files st !! filename with
  | Some (Refused e _) => (Raise e, st')
  | Some (File content) =>
      match mode with
      | CreateReadWrite =>
          (Ok {| buf := ""; pos := 0 |},
           {| files := <[filename := File ""]> (files st');
              trace := trace st' |})
      | _ => (Ok {| buf := content; pos := 0 |}, st')
      end
  | None =>
      match mode with
      | CreateReadWrite =>
          (Ok {| buf := ""; pos := 0 |},
           {| files := <[filename := File ""]> (files st');
              trace := trace st' |})
      | _ => (Raise (FileNotFoundError filename), st')
      end
  end.

(** Closing the file: what was written reaches the file system. *)
Definition close (filename : string) (f : file_obj) : M unit := λ st,
  (Ok tt,
   {| files := <[filename := File (buf f)]> (files st); trace := trace st |}).

(** [with open(filename, mode) as f: block]: the block returns or raises,
    and the file is closed either way. *)
Definition with_open {A} (filename : string) (mode : file_mode)
    (block : file_obj → result A * file_obj) : M A :=
  f ← open_ filename mode;
  let '(r, f) := block f in
  close filename f;;
  lift r.

(** ** Validation of the configuration *)

(** The body of the loop [for config in group_config] of
    [validate_config], for one element. *)
Definition validate_group (config : json) : result unit :=
  match config with
  | JObj d =>
      let title := dict_get d "title" in
      let labels := dict_get d "labels" in
      if negb (truthy title) then
        Raise (KeyError "group_config item must contain title")
      else if negb (truthy labels) then
        Raise (KeyError "group_config item must contain labels")
      else if negb (is_list labels) then
        Raise (TypeError "group_config labels must be an Array")
      else Ok tt
  | _ =>
      Raise (TypeError
        "group_config items must have key, value pairs of title and labels")
  end.

(** The loop [for config in group_config]: the first element that does
    not match the schema raises. *)
Fixpoint validate_groups (group_config : list json) : result unit :=
  match group_config with
  | [] => Ok tt
  | config :: rest =>
      match validate_group config with
      | Ok _ => validate_groups rest
      | Raise e => Raise e
      end
  end.

(** [validate_config] *)
Definition validate_config (config : json) : result unit :=
  match config with
  | JObj d =>
      let header_prefix := dict_get d "header_prefix" in
      let group_config := dict_get d "group_config" in
      if negb (truthy header_prefix) then
        Raise (KeyError "Configuration Must Contain header_prefix")
      else
        match group_config with
        | JArr l => validate_groups l
        | _ => Raise (TypeError "group_config must be an Array")
        end
  | _ =>
      Raise (TypeError
        "Configuration does not contain required key, value pairs")
  end.

(** The configuration of the data model that a document stands for, when
    it has its shape: strings for [header_prefix] and every [title], a
    list of strings for every [labels]. *)
Definition as_str (v : json) : option string :=
  match v with JStr s => Some s | _ => None end.

Definition as_group (v : json) : option group_config_item :=
  match v with
  | JObj d =>
      t ← d !! "title" ≫= as_str;
      ls ← d !! "labels";
      match ls with
      | JArr l => GroupConfig t <$> mapM as_str l
      | _ => None
      end
  | _ => None
  end.

Definition as_config (v : json) : option Config :=
  match v with
  | JObj d =>
      hp ← d !! "header_prefix" ≫= as_str;
      gc ← d !! "group_config";
      match gc with
      | JArr l => MkConfig hp <$> mapM as_group l
      | _ => None
      end
  | _ => None
  end.

(** ** The GitHub API and the object [self] *)

(** A label of a pull request, as the search API lists it. *)
Record api_label := ApiLabel { name : string }.

(** One element of ['items'] in the answer of the search API. *)
Record api_item := ApiItem {
  item_title : string;
  item_number : Z;
  item_html_url : string;
  item_labels : list api_label
}.

(** The decoded body, [response.json()].  The script reads
    ['published_at'] of the answer to the release request, and
    ['total_count'] and ['items'] of the answer to the search; the bodies
    are modelled with the fields GitHub documents for them. *)
Inductive payload :=
| ReleaseBody (published_at : string)
| SearchBody (total_count : Z) (items : list api_item)
| OtherBody.

Record response := Response {
  status_code : Z;
  body : payload
}.

(** The fields of [ChangelogCI], and the server [requests.get] talks
    to.  [config] is the document [_parse_config] has returned. *)
Record ChangelogCI := {
  repository : string;
  event_path : string;
  filename : string;
  config : json;
  token : option string;
  requests_get : string → list (string * string) → response
}.

Section Methods.

(** [json.loads]: the document a text stands for, or the exception the
    decoder raises.  Decoding is the library's and is taken as given. *)
Variable json_loads : string → result json.

Variable self : ChangelogCI.

(** [ChangelogCI._pull_request_title]; [json.load] reads the file to its
    end and decodes the text. *)
Definition _pull_request_title : M json :=
  with_open (event_path self) ReadOnly (λ json_file,
    let '(text, json_file) := f_read json_file in
    (data ← json_loads text;
     pull_request ← getitem data "pull_request";
     getitem pull_request "title",
     json_file)).

(** [ChangelogCI._get_request_headers] *)
Definition _get_request_headers : list (string * string) :=
  let headers := [("Accept", "application/vnd.github.v3+json")] in
  match token self with
  | Some token =>
      if Py.truthy_str token
      then headers ++ [("authorization", "Bearer " +:+ token)]
      else headers
  | None => headers
  end.

(** The address of the latest release,
    ['https://api.github.com/repos/{repo_name}/releases/latest']. *)
Definition release_url : string :=
  "https://api.github.com/repos/" +:+ repository self
    +:+ "/releases/latest".

(** The address of the search for merged pull requests, with the
    filter on the merge date filled in. *)
Definition search_url (merged_date_filter : string) : string :=
  "https://api.github.com/search/issues?q=repo:" +:+ repository self
    +:+ "+is:pr+is:merged+sort:author-date-asc+"
    +:+ merged_date_filter +:+ "&sort=merged".

(** [ChangelogCI._get_latest_release_date] *)
Definition _get_latest_release_date : M string :=
  let url := release_url in
  let response := requests_get self url _get_request_headers in
  if (status_code response =? 200)%Z then
    match body response with
    | ReleaseBody published_at => mret published_at
    | _ => raise (KeyError "published_at")
    end
  else
    log WARNING ("Could not find any release for " +:+ repository self
                   +:+ ", status code: "
                   +:+ Py.str_of_int (status_code response));;
    mret "".

(** The [try] block of [_get_version_number], for the title read.  A
    title that is no [str] has no method [lower] and raises
    [AttributeError], a title without a second element raises
    [IndexError]; the [except] clause swallows both and the version stays
    empty. *)
Definition version_in (title : json) : string :=
  match title with
  | JStr title =>
      if Py.startswith (Py.lower title) "release" then
        let slices := Py.split " " title in
        match slices !! 1 with
        | Some version => version
        | None => ""
        end
      else ""
  | _ => ""
  end.

(** [ChangelogCI._get_version_number] *)
Definition _get_version_number : M string :=
  title ← _pull_request_title;
  mret (version_in title).

(** [ChangelogCI._get_file_mode] *)
Definition _get_file_mode : M file_mode :=
  exists_ ← path_exists (filename self);
  mret (if exists_ : bool then ReadWrite else CreateReadWrite).

(** The dictionary [_get_pull_requests_after_last_release] builds for
    an item of the search answer. *)
Definition record_of_item (item : api_item) : pull_request :=
  {| pr_title := item_title item;
     pr_number := item_number item;
     pr_url := item_html_url item;
     pr_labels := map name (item_labels item) |}.

(** [ChangelogCI._get_pull_requests_after_last_release] *)
Definition _get_pull_requests_after_last_release
  : M (list pull_request) :=
  previous_release_date ← _get_latest_release_date;
  let merged_date_filter :=
    if Py.truthy_str previous_release_date
    then "merged:>=" +:+ previous_release_date
    else "" in
  let url := search_url merged_date_filter in
  let response := requests_get self url _get_request_headers in
  if (status_code response =? 200)%Z then
    match body response with
    | SearchBody total_count items =>
        if (0 <? total_count)%Z then mret (map record_of_item items)
        else
          log WARNING ("There was no pull request made on "
                         +:+ repository self
                         +:+ " after last release.");;
          mret []
    | _ => raise (KeyError "total_count")
    end
  else
    log ERROR ("GitHub API returned error response for "
                 +:+ repository self +:+ ", status code: "
                 +:+ Py.str_of_int (status_code response));;
    mret [].

(** One turn of the loop [for data in data_to_write] of
    [write_changelog]. *)
Definition write_group (f : file_obj) (data : group) : file_obj :=
  let f :=
    if Py.truthy_str (title data) && truthy_items (items data)
    then f_write (title data) (f_write Py.LF f)
    else f in
  let f := f_write Py.LF f in
  f_writelines (lines_of (items data)) f.

(** The body of the [with] block of [write_changelog]: what it returns or
    raises, and the file object as it leaves it. *)
Definition write_section (version : string) (data_to_write : list group)
    (f : file_obj) : result unit * file_obj :=
  let '(body, f) := f_read f in
  match (header_prefix ← getitem (config self) "header_prefix";
         add_str header_prefix " ") with
  | Raise e => (Raise e, f)
  | Ok prefix =>
      let version := prefix +:+ version in
      let f := f_seek 0 f in
      let f := f_write (version +:+ Py.LF) f in
      let f := f_write (Py.repeat_str "=" (String.length version)) f in
      let f := f_write Py.LF f in
      let f := fold_left write_group data_to_write f in
      (Ok tt,
       if Py.truthy_str body
       then f_write body (f_write (Py.LF +:+ Py.LF) f)
       else f)
  end.

(** [ChangelogCI.write_changelog] *)
Definition write_changelog : M unit :=
  version ← _get_version_number;
  if negb (Py.truthy_str version) then
    log WARNING ("The title of the pull request is incorrect. "
                   +:+ "Please use title like: "
                   +:+ "``release <version_number> <other_text>``")
  else
    pull_request_data ← _get_pull_requests_after_last_release;
    if negb (Py.truthy_list pull_request_data) then mret tt
    else
      file_mode ← _get_file_mode;
      data_to_write ← lift (_parse_data (config self) pull_request_data);
      with_open (filename self) file_mode
        (write_section version data_to_write).

End Methods.

(** ** Closed forms of what the writer writes *)

(** The text one turn of the loop of [write_changelog] adds for a group. *)
Definition block_text (data : group) : string :=
  (if Py.truthy_str (title data) && truthy_items (items data)
   then Py.LF +:+ title data else "")
    +:+ Py.LF +:+ Py.join (lines_of (items data)).

(** The header line of a section. *)
Definition header_line (header_prefix version : string) : string :=
  header_prefix +:+ " " +:+ version.

(** The whole section: header line, underline, and the groups. *)
Definition section_text (header_prefix version : string)
    (data_to_write : list group) : string :=
  header_line header_prefix version +:+ Py.LF
    +:+ Py.repeat_str "=" (String.length (header_line header_prefix version))
    +:+ Py.LF
    +:+ Py.join (map block_text data_to_write).

(** What the [with] block writes from the start of a file that holds
    [old]: the section, then two line feeds and the old content as it was
    read, when there was any. *)
Definition written (header_prefix version : string)
    (data_to_write : list group) (old : string) : string :=
  section_text header_prefix version data_to_write
    +:+ (if Py.truthy_str (Py.universal_newlines old)
         then Py.LF +:+ Py.LF +:+ Py.universal_newlines old else "").

(** The file that results: what was written, and what the old file held
    beyond the length of that. *)
Definition prepended (header_prefix version : string)
    (data_to_write : list group) (old : string) : string :=
  written header_prefix version data_to_write old
    +:+ Py.drop
          (String.length (written header_prefix version data_to_write old))
          old.

(** A file object has written [w] over a file that held [old]: [w] has
    replaced the first characters of [old], and the position is behind
    [w]. *)
Definition wrote (w old : string) (f : file_obj) : Prop :=
  buf f = w +:+ Py.drop (String.length w) old ∧ pos f = String.length w.

(** The title line of a group: its title without the two line feeds at
    its end. *)
Definition heading (g : group) : string :=
  Py.take (String.length (title g) - 2) (title g).

(** [sep in s] for a character. *)
Fixpoint contains (sep : ascii) (s : string) : bool :=
  match s with
  | EmptyString => false
  | String c s' => if Ascii.eqb c sep then true else contains sep s'
  end.

(** ** The grouping, on the records and the data model *)

(** The document that a configuration of the data model is written as:
    [as_config] reads the configuration back from it. *)
Definition group_document (c : group_config_item) : json :=
  JObj {[ "title" := JStr (gc_title c);
          "labels" := JArr (JStr <$> gc_labels c) ]}.

Definition document (config : Config) : json :=
  JObj {[ "header_prefix" := JStr (header_prefix config);
          "group_config" := JArr (group_document <$> group_config config) ]}.

(** A pull request carries one of the labels. *)
Definition carries (labels : list string) (pr : pull_request) : bool :=
  existsb (λ label, bool_decide (label ∈ pr_labels pr)) labels.

(** [scan] for the labels of a group of the data model, with the pull
    requests themselves collected instead of their rendered lines: which
    records a pass claims. *)
Fixpoint claim (fuel : nat) (labels : list string) (i : nat)
    (pool claimed : list pull_request)
  : list pull_request * list pull_request :=
  match fuel with
  | O => (claimed, pool)
  | S fuel' =>
      match pool !! i with
      | None => (claimed, pool)
      | Some pr =>
          if carries labels pr then
            claim fuel' labels (S i) (Py.remove pr pool) (claimed ++ [pr])
          else claim fuel' labels (S i) pool claimed
      end
  end.

(** The records each configured group claims, in order, and the records
    left over. *)
Fixpoint claims (group_config : list group_config_item)
    (pool : list pull_request)
  : list (list pull_request) * list pull_request :=
  match group_config with
  | [] => ([], pool)
  | config :: rest =>
      let '(claimed, pool') :=
        claim (length pool) (gc_labels config) 0 pool [] in
      let '(parts, leftover) := claims rest pool' in
      (claimed :: parts, leftover)
  end.

(** The records behind each group [_parse_data] returns. *)
Definition partition_of (config : Config) (prs : list pull_request)
  : list (list pull_request) :=
  match group_config config with
  | [] => [prs]
  | gc =>
      let '(parts, leftover) := claims gc prs in
      match leftover with
      | [] => parts
      | _ => parts ++ [leftover]
      end
  end.

(** The group [_parse_data] builds for a configured group and the
    records it has claimed. *)
Definition configured (config : group_config_item)
    (part : list pull_request) : group :=
  {| title := "#### " +:+ gc_title config +:+ Py.LF +:+ Py.LF;
     items := PyList (map _get_changelog_line part) |}.

(** The group [_parse_data] adds for the pull requests no configured
    group has claimed. *)
Definition other_changes (leftover : list pull_request) : group :=
  {| title := "#### Other Changes" +:+ Py.LF +:+ Py.LF;
     items := PyMap leftover |}.

(** What [_parse_data] returns for a configuration of the data model, by
    the records claimed. *)
Definition grouped (config : Config) (prs : list pull_request)
  : list group :=
  match group_config config with
  | [] => [{| title := ""; items := PyMap prs |}]
  | gc =>
      zip_with configured gc (claims gc prs).1
        ++ (if Py.truthy_list (claims gc prs).2
            then [other_changes (claims gc prs).2] else [])
  end.

(** One pass over the pull requests, read off the list itself: a pull
    request that carries a label of the group is claimed, and then the
    one that follows it is passed over and kept, whatever its labels.
    The result is the claimed records and the records kept. *)
Fixpoint skim (labels : list string) (pool : list pull_request)
  : list pull_request * list pull_request :=
  match pool with
  | [] => ([], [])
  | pr :: rest =>
      if carries labels pr then
        match rest with
        | [] => ([pr], [])
        | next :: rest' =>
            let '(claimed, kept) := skim labels rest' in
            (pr :: claimed, next :: kept)
        end
      else
        let '(claimed, kept) := skim labels rest in
        (claimed, pr :: kept)
  end.

(** The passes of all configured groups, one after the other on what the
    one before has kept. *)
Fixpoint skims (group_config : list group_config_item)
    (pool : list pull_request)
  : list (list pull_request) * list pull_request :=
  match group_config with
  | [] => ([], pool)
  | config :: rest =>
      let '(claimed, kept) := skim (gc_labels config) pool in
      let '(parts, leftover) := skims rest kept in
      (claimed :: parts, leftover)
  end.

(** The elements at the positions 0, 2, 4, ... of a list. *)
Fixpoint evens {A} (l : list A) : list A :=
  match l with
  | [] => []
  | x :: rest =>
      x :: match rest with
           | [] => []
           | _ :: rest' => evens rest'
           end
  end.

(** The elements at the positions 1, 3, 5, ... of a list. *)
Definition odds {A} (l : list A) : list A := evens (tail l).

(** ** The specification's wording, for comparison *)

Module Spec.

(** The whitespace-separated tokens of a title. *)
Definition whitespace_tokens (title : string) : list string :=
  String.words title.

(** "The version token is the second whitespace-separated word." *)
Definition version_token (title : string) : string :=
  default "" (whitespace_tokens title !! 1).

(** "Blank line, then group title, blank line, then its rendered
    lines", for a group with a title line [heading] and lines. *)
Definition block (heading : string) (lines : list string) : string :=
  Py.LF +:+ heading +:+ Py.LF +:+ Py.LF +:+ Py.join lines.

(** "A header line [<header_prefix> <version>] followed by a line of [=]
    characters matching its length", then the groups. *)
Definition section (header_prefix version : string)
    (groups : list (string * list string)) : string :=
  let header := header_prefix +:+ " " +:+ version in
  header +:+ Py.LF +:+ Py.repeat_str "=" (String.length header) +:+ Py.LF
    +:+ Py.join (map (λ g, block g.1 g.2) groups).

(** The layout of a group in the amended wording: a group with a title
    line and at least one line gives an empty line, the title line, two
    empty lines and its lines; any other group gives an empty line and
    its lines, if it has any. *)
Definition group_layout (heading : string) (lines : list string) : string :=
  if Py.truthy_str heading && Py.truthy_list lines
  then Py.LF +:+ heading +:+ Py.LF +:+ Py.LF +:+ Py.LF +:+ Py.join lines
  else Py.LF +:+ Py.join lines.

(** "Old content unchanged, byte for byte, appearing strictly after the
    newly written section", "separated from the new section by exactly
    two newline characters" when it is not empty. *)
Definition round_trip (new old : string) : string :=
  if Py.truthy_str old then new +:+ Py.LF +:+ Py.LF +:+ old else new.

(** "Root must be a key/value mapping", and the key is present. *)
Definition missing (v : json) (key : string) : Prop :=
  match v with
  | JObj d => d !! key = None
  | _ => True
  end.

(** The value under a key of the document, [None] when the document
    is no mapping or lacks the key. *)
Definition field (v : json) (key : string) : json :=
  match v with
  | JObj d => dict_get d key
  | _ => JNull
  end.

(** "A mapping containing non-empty [title] and a non-empty list
    [labels]"; non-empty is Python's truth of the value. *)
Definition valid_group (v : json) : Prop :=
  ∃ d, v = JObj d
    ∧ truthy (dict_get d "title") = true
    ∧ ∃ l, dict_get d "labels" = JArr l ∧ l ≠ [].

(** "[header_prefix] must be present and non-empty; [group_config] must
    be a sequence" of valid groups. *)
Definition valid_config (v : json) : Prop :=
  ∃ d, v = JObj d
    ∧ truthy (dict_get d "header_prefix") = true
    ∧ ∃ l, dict_get d "group_config" = JArr l ∧ Forall valid_group l.

End Spec.

(** [validate_config] raises. *)
Definition rejects (config : json) : Prop :=
  ∃ e, validate_config config = Raise e.

(** An event is a log record. *)
Definition is_logged (ev : event) : Prop :=
  ∃ lvl msg, ev = Logged lvl msg.

(** The exceptions an answer of the server without the expected fields
    leads to. *)
Definition api_error (e : exn) : Prop :=
  e = KeyError "published_at" ∨ e = KeyError "total_count".

(** Every title of the groups of a document is a string. *)
Definition string_titles (doc : json) : Prop :=
  ∀ l, Spec.field doc "group_config" = JArr l →
    Forall (λ g, ∃ t, Spec.field g "title" = JStr t) l.

(** ** Sample inputs *)

Module Sample.

(** A server that answers the release request with [rel] and any other
    request with [srch]. *)
Definition server (rel srch : response)
  : string → list (string * string) → response :=
  λ url _,
    if Py.startswith url "https://api.github.com/repos/" then rel
    else srch.

Definition no_release : response := Response 404 OtherBody.

Definition released : response :=
  Response 200 (ReleaseBody "2020-07-01T12:00:00Z").

Definition found (items : list api_item) : response :=
  Response 200 (SearchBody (Z.of_nat (length items)) items).

(** The example of the specification: one group, one pull request. *)
Definition bug_fixes : Config :=
  MkConfig "Version:" [GroupConfig "Bug Fixes" ["bug"]].

(** The document of the specification's example. *)
Definition typed_config : json :=
  JObj {[ "header_prefix" := JStr "Version:";
          "group_config" :=
            JArr [JObj {[ "title" := JStr "Bug Fixes";
                          "labels" := JArr [JStr "bug"] ]}] ]}.

Definition fix_crash : api_item :=
  ApiItem "Fix crash" 5 "http://x/5" [ApiLabel "bug"].

Definition add_search : api_item :=
  ApiItem "Add search" 7 "http://x/7" [ApiLabel "feature"].

Definition ci (config : json) (rel srch : response) : ChangelogCI :=
  {| repository := "owner/repo"; event_path := "event.json";
     filename := "CHANGELOG.md"; config := config; token := None;
     requests_get := server rel srch |}.

Definition example_ci : ChangelogCI :=
  ci typed_config no_release (found [fix_crash]).

(** The webhook payload of a pull request with the given title, as a
    document and as the text of the file at [event_path]. *)
Definition event (title : string) : json :=
  JObj {[ "pull_request" := JObj {[ "title" := JStr title ]} ]}.

Definition event_text (title : string) : string :=
  "{" +:+ Py.QUOTE +:+ "pull_request" +:+ Py.QUOTE +:+ ": {"
    +:+ Py.QUOTE +:+ "title" +:+ Py.QUOTE +:+ ": "
    +:+ Py.QUOTE +:+ title +:+ Py.QUOTE +:+ "}}".

(** The titles of the examples. *)
Definition titles : list string :=
  ["Release 2.0.0 launch"; "Release 2.0.0"; "release  1.2.3";
   "Releases v2.1 (hotfix)"; "Release 1.2.3 notes"; "Fix bug"; "release"].

(** A decoder that knows the payloads of the examples: it stands for
    [json.loads] on these texts. *)
Definition loads (text : string) : result json :=
  match list_find (λ title, text = event_text title) titles with
  | Some (_, title) => Ok (event title)
  | None => Raise (JSONDecodeError "Expecting value")
  end.

(** A state without any file. *)
Definition empty : state := State ∅ [].

(** A state without a changelog, and one with an old changelog; the
    payload at [event_path] has the given title. *)
Definition no_file (title : string) : state :=
  State {[ "event.json" := File (event_text title) ]} [].

Definition old_file (title : string) : state :=
  State {[ "event.json" := File (event_text title);
           "CHANGELOG.md" := File "Version: 1.0.0" ]} [].


(** A state in which the path of the changelog is a directory. *)
Definition directory (title : string) : state :=
  State {[ "event.json" := File (event_text title);
           "CHANGELOG.md" := Refused (IsADirectoryError "CHANGELOG.md") true ]}
    [].

(** The state after the title has been read. *)
Definition read (st : state) : state :=
  State (files st) (trace st ++ [Opened "event.json" ReadOnly]).

(** The state after the release lookup has found no release. *)
Definition warned (st : state) : state :=
  State (files st)
    (trace st ++
       [Logged WARNING
          "Could not find any release for owner/repo, status code: 404"]).

(** Two groups, and two pull requests that both carry the label of the
    first group. *)
Definition two_groups : Config :=
  MkConfig "Version:"
    [GroupConfig "Bug Fixes" ["bug"]; GroupConfig "Features" ["feature"]].

Definition two_groups_config : json :=
  JObj {[ "header_prefix" := JStr "Version:";
          "group_config" :=
            JArr [JObj {[ "title" := JStr "Bug Fixes";
                          "labels" := JArr [JStr "bug"] ]};
                  JObj {[ "title" := JStr "Features";
                          "labels" := JArr [JStr "feature"] ]}] ]}.

Definition pr1 : pull_request :=
  PullRequest "Fix crash" 1 "http://x/1" ["bug"].

Definition pr2 : pull_request :=
  PullRequest "Fix and extend search" 2 "http://x/2" ["bug"; "feature"].

Definition pr3 : pull_request :=
  PullRequest "Update docs" 3 "http://x/3" ["docs"].

Definition pr4 : pull_request :=
  PullRequest "Fix typo" 4 "http://x/4" ["bug"].

(** A document [validate_config] accepts although no value in it is a
    string. *)
Definition untyped_config : json :=
  JObj {[ "header_prefix" := JInt 7;
          "group_config" :=
            JArr [JObj {[ "title" := JInt 3;
                          "labels" := JArr [JInt 1; JInt 2] ]}] ]}.

(** A document [validate_config] accepts whose [header_prefix] is a
    number. *)
Definition numbered_config : json :=
  JObj {[ "header_prefix" := JInt 7; "group_config" := JArr [] ]}.

End Sample.

(** ** Loading the configuration *)

Section ConfigLoader.

(** What [open(config_file, 'r')] followed by [json.load] gives for a
    path when the object is built: the document, or the exception that
    [open] or the parser raises.  Reading and parsing are the library's
    and are taken as given. *)
Variable load : string → result json.

(** [str(e)], as [%s] formats an exception in a log record. *)
Variable str_exn : exn → string.

(** The body of the [try] block of [_parse_config]: the document that
    [return config] returns, or the exception the [except] clause
    catches. *)
Definition load_valid (config_file : string) : result json :=
  match load config_file with
  | Ok config =>
      match validate_config config with
      | Ok _ => Ok config
      | Raise e => Raise e
      end
  | Raise e => Raise e
  end.

(** The end of [_parse_config], reached when no file is given or the
    [try] block has failed. *)
Definition use_default : M json :=
  log WARNING "Using Default Config to parse changelog";;
  mret _default_config.

(** [ChangelogCI._parse_config]; [config_file] is [None] or a string. *)
Definition _parse_config (config_file : option string) : M json :=
  match config_file with
  | Some path =>
      if Py.truthy_str path then
        match load_valid path with
        | Ok config => mret config
        | Raise e =>
            log ERROR ("Invalid Configuration file, error: "
                         +:+ str_exn e +:+ Py.LF);;
            use_default
        end
      else use_default
  | None => use_default
  end.

End ConfigLoader.

(** ** What a run finds at the path of the changelog *)

(** The content the [with] block of [write_changelog] starts from: that
    of the file, or the empty content of the file that [open] creates;
    none when [open] fails. *)
Definition old_content (n : option node) : option string :=
  match n with
  | Some (File content) => Some content
  | Some (Refused _ _) => None
  | None => Some ""
  end.

(** The mode [_get_file_mode] chooses. *)
Definition mode_of (n : option node) : file_mode :=
  match n with
  | Some (File _) => ReadWrite
  | Some (Refused _ exists_) =>
      if exists_ then ReadWrite else CreateReadWrite
  | None => CreateReadWrite
  end.

(** * Proofs *)

(** ** Strings *)

Section StringFacts.

Implicit Types s t u w : string.

Lemma str_app_cons c s t : String c s +:+ t = String c (s +:+ t).
Proof. reflexivity. Qed.

Lemma str_app_nil_l s : "" +:+ s = s.
Proof. reflexivity. Qed.

Lemma str_app_nil_r s : s +:+ "" = s.
Proof. induction s as [|c s IH]; [done|]. by rewrite str_app_cons, IH. Qed.

Lemma str_app_assoc s t u : (s +:+ t) +:+ u = s +:+ t +:+ u.
Proof.
  induction s as [|c s IH]; [done|]. by rewrite !str_app_cons, IH.
Qed.

Lemma str_length_app s t :
  String.length (s +:+ t) = String.length s + String.length t.
Proof.
  induction s as [|c s IH]; [done|]. rewrite str_app_cons. simpl. by rewrite IH.
Qed.

Lemma str_take_app_length w s : Py.take (String.length w) (w +:+ s) = w.
Proof.
  induction w as [|c w IH]; [by destruct s|].
  rewrite str_app_cons. simpl. by rewrite IH.
Qed.

Lemma str_drop_app_length w s : Py.drop (String.length w) (w +:+ s) = s.
Proof.
  induction w as [|c w IH]; [by destruct s|]. rewrite str_app_cons. by simpl.
Qed.

Lemma str_drop_0 s : Py.drop 0 s = s.
Proof. by destruct s. Qed.

Lemma str_drop_nil n : Py.drop n "" = "".
Proof. by destruct n. Qed.

Lemma str_drop_drop n m s : Py.drop n (Py.drop m s) = Py.drop (m + n) s.
Proof.
  revert s. induction m as [|m IH]; intros s.
  - by rewrite str_drop_0.
  - destruct s as [|c s]; [by rewrite !str_drop_nil|]. simpl. apply IH.
Qed.

Lemma str_drop_all n s : String.length s ≤ n → Py.drop n s = "".
Proof.
  revert s. induction n as [|n IH]; intros [|c s] Hn; simpl in *;
    try done; try lia.
  apply IH. lia.
Qed.

Lemma str_length_drop n s :
  String.length (Py.drop n s) = String.length s - n.
Proof.
  revert s. induction n as [|n IH]; intros [|c s]; simpl; try done.
Qed.

Lemma length_repeat_char c n :
  String.length (Py.repeat_str (String c "") n) = n.
Proof.
  induction n as [|n IH]; [done|]. simpl. rewrite str_length_app, IH. done.
Qed.

Lemma join_app (l k : list string) :
  Py.join (l ++ k) = Py.join l +:+ Py.join k.
Proof.
  induction l as [|s l IH]; [done|]. simpl. by rewrite IH, str_app_assoc.
Qed.

Lemma truthy_str_true s : Py.truthy_str s = true ↔ s ≠ "".
Proof. by destruct s. Qed.

Lemma truthy_str_false s : Py.truthy_str s = false ↔ s = "".
Proof. by destruct s. Qed.

Lemma truthy_list_true {A} (l : list A) : Py.truthy_list l = true ↔ l ≠ [].
Proof. by destruct l. Qed.

End StringFacts.

(** ** The file object *)

Section FileFacts.

Implicit Types (f : file_obj) (w old s : string).

(** A freshly opened file has written nothing yet. *)
Lemma wrote_seek old f : buf f = old → wrote "" old (f_seek 0 f).
Proof.
  intros <-. split; [|done].
  change (buf (f_seek 0 f)) with (buf f). by rewrite str_app_nil_l, str_drop_0.
Qed.

(** Writing appends to what has been written; the old content ahead of
    the position is overwritten or, past its end, the file grows. *)
Lemma wrote_write w old s f :
  wrote w old f → wrote (w +:+ s) old (f_write s f).
Proof.
  intros [Hbuf Hpos]. unfold f_write, wrote. simpl.
  rewrite Hbuf, Hpos, str_take_app_length, str_length_app, str_length_drop.
  replace (String.length w - (String.length w + _)) with 0 by lia.
  simpl. rewrite str_app_nil_l.
  rewrite <-(str_drop_drop (String.length s) (String.length w)).
  by rewrite str_drop_app_length, str_drop_drop, str_length_app, !str_app_assoc.
Qed.

Lemma wrote_writelines w old lines f :
  wrote w old f → wrote (w +:+ Py.join lines) old (f_writelines lines f).
Proof.
  unfold f_writelines. revert w f.
  induction lines as [|l lines IH]; intros w f Hw; simpl.
  - by rewrite str_app_nil_r.
  - rewrite <-str_app_assoc. apply IH. by apply wrote_write.
Qed.

Lemma wrote_group w old data f :
  wrote w old f → wrote (w +:+ block_text data) old (write_group f data).
Proof.
  intros Hw. unfold write_group, block_text.
  destruct (Py.truthy_str (title data) && truthy_items (items data)).
  - rewrite <-!str_app_assoc.
    apply wrote_writelines. do 3 apply wrote_write. done.
  - rewrite str_app_nil_l, <-str_app_assoc.
    apply wrote_writelines. by apply wrote_write.
Qed.

Lemma wrote_groups w old data_to_write f :
  wrote w old f →
  wrote (w +:+ Py.join (map block_text data_to_write)) old
    (fold_left write_group data_to_write f).
Proof.
  revert w f. induction data_to_write as [|g gs IH]; intros w f Hw; simpl.
  - by rewrite str_app_nil_r.
  - rewrite <-str_app_assoc. apply IH. by apply wrote_group.
Qed.

(** What has been written is the whole file as soon as it is at least
    as long as the old content. *)
Lemma wrote_all w old f :
  wrote w old f → String.length old ≤ String.length w → buf f = w.
Proof.
  intros [-> _] Hlen. by rewrite str_drop_all, str_app_nil_r.
Qed.

End FileFacts.

(** ** Line ends *)

Section NewlineFacts.

Implicit Types s t : string.

Lemma universal_newlines_cons c s :
  Py.universal_newlines (String c s)
  = if Ascii.eqb c "013" then
      String "010"
        match s with
        | String c' s' =>
            if Ascii.eqb c' "010" then Py.universal_newlines s'
            else Py.universal_newlines s
        | EmptyString => EmptyString
        end
    else String c (Py.universal_newlines s).
Proof. done. Qed.

(** A text without carriage return is read as it is. *)
Lemma universal_newlines_id s :
  contains "013" s = false → Py.universal_newlines s = s.
Proof.
  induction s as [|c s IH]; [done|].
  rewrite universal_newlines_cons. simpl.
  destruct (Ascii.eqb c "013"); [done|]. intros Hs. by rewrite IH.
Qed.

(** Reading never makes a text longer. *)
Lemma length_universal_newlines s :
  String.length (Py.universal_newlines s) ≤ String.length s.
Proof.
  assert (∀ n s, String.length s ≤ n →
            String.length (Py.universal_newlines s) ≤ String.length s) as H;
    [|by apply (H (String.length s))].
  clear s. induction n as [|n IH]; intros [|c s] Hlen; simpl in Hlen;
    try done; try lia.
  rewrite universal_newlines_cons.
  destruct (Ascii.eqb c "013").
  - destruct s as [|c' s]; [done|].
    destruct (Ascii.eqb c' "010").
    + simpl in *. specialize (IH s). lia.
    + specialize (IH (String c' s)). simpl in *. lia.
  - specialize (IH s). simpl in *. lia.
Qed.

(** A text is read as the empty text only when it is empty. *)
Lemma truthy_universal_newlines s :
  Py.truthy_str (Py.universal_newlines s) = Py.truthy_str s.
Proof.
  destruct s as [|c s]; [done|]. rewrite universal_newlines_cons.
  by destruct (Ascii.eqb c "013").
Qed.

End NewlineFacts.

(** ** Running the script *)

Ltac run :=
  unfold mbind, M_bind, mret, M_ret, log, emit, raise, lift; simpl.

Section RunFacts.

Variable json_loads : string → result json.
Variable self : ChangelogCI.

(** Reading the title opens the payload for reading and changes no
    file. *)
Lemma title_frame st r st0 :
  _pull_request_title json_loads self st = (r, st0) →
  st0 = {| files := files st;
           trace := trace st ++ [Opened (event_path self) ReadOnly] |}.
Proof.
  unfold _pull_request_title, with_open, open_, close, f_read. run.
  destruct (files st !! event_path self) as [[text|e ex]|] eqn:Hf; simpl.
  - rewrite insert_id by done. by intros [= <- <-].
  - by intros [= <- <-].
  - by intros [= <- <-].
Qed.

(** The title is what the decoder makes of the text of the payload. *)
Lemma title_read st text :
  files st !! event_path self = Some (File text) →
  _pull_request_title json_loads self st
  = (data ← json_loads (Py.universal_newlines text);
     pull_request ← getitem data "pull_request";
     getitem pull_request "title",
     {| files := files st;
        trace := trace st ++ [Opened (event_path self) ReadOnly] |}).
Proof.
  intros Hf.
  destruct (_pull_request_title json_loads self st) as [r st0] eqn:Hrun.
  rewrite (title_frame _ _ _ Hrun). f_equal.
  revert Hrun. unfold _pull_request_title, with_open, open_, close, f_read.
  run. rewrite Hf. simpl. rewrite ?str_drop_0. by intros [= <- _].
Qed.

(** The version is read off the title. *)
Lemma version_of_title st title st0 :
  _pull_request_title json_loads self st = (Ok title, st0) →
  _get_version_number json_loads self st = (Ok (version_in title), st0).
Proof. intros Ht. unfold _get_version_number. run. by rewrite Ht. Qed.

Lemma version_inv st version st0 :
  _get_version_number json_loads self st = (Ok version, st0) →
  ∃ title,
    _pull_request_title json_loads self st = (Ok title, st0)
    ∧ version = version_in title.
Proof.
  unfold _get_version_number. run.
  destruct (_pull_request_title json_loads self st) as [[title|e] st'];
    [|done].
  intros [= <- <-]. by exists title.
Qed.

Lemma version_frame st r st0 :
  _get_version_number json_loads self st = (r, st0) →
  st0 = {| files := files st;
           trace := trace st ++ [Opened (event_path self) ReadOnly] |}.
Proof.
  unfold _get_version_number. run.
  destruct (_pull_request_title json_loads self st) as [[title|e] st'] eqn:Ht;
    apply title_frame in Ht; by intros [= <- <-].
Qed.

(** The release lookup leaves the files alone and only logs. *)
Lemma release_date_frame st r st1 :
  _get_latest_release_date self st = (r, st1) →
  files st1 = files st
  ∧ ∃ logs, trace st1 = trace st ++ logs ∧ Forall is_logged logs.
Proof.
  unfold _get_latest_release_date.
  destruct (status_code _ =? 200)%Z.
  - destruct (body _); run; intros [= <- <-];
      (split; [done|]; exists []; by rewrite app_nil_r).
  - run. intros [= <- <-]. split; [done|].
    eexists [_]. split; [done|]. repeat constructor. by eexists _, _.
Qed.

(** So does the search for pull requests. *)
Lemma pull_requests_frame st r st1 :
  _get_pull_requests_after_last_release self st = (r, st1) →
  files st1 = files st
  ∧ ∃ logs, trace st1 = trace st ++ logs ∧ Forall is_logged logs.
Proof.
  unfold _get_pull_requests_after_last_release. run.
  destruct (_get_latest_release_date self st) as [[d|e] st0] eqn:Hrel;
    apply release_date_frame in Hrel as (Hf & logs & Ht & Hl).
  2:{ intros [= <- <-]. eauto. }
  destruct (status_code _ =? 200)%Z.
  - destruct (body _) as [|n its|]; run.
    + intros [= <- <-]. eauto.
    + destruct (0 <? n)%Z; run; intros [= <- <-]; simpl.
      * eauto.
      * split; [done|]. exists (logs ++ [Logged WARNING
          ("There was no pull request made on " +:+ repository self
             +:+ " after last release.")]).
        rewrite Ht, <-(assoc_L (++)). split; [done|].
        apply Forall_app. split; [done|].
        repeat constructor. by eexists _, _.
    + intros [= <- <-]. eauto.
  - intros [= <- <-]. simpl. split; [done|].
    eexists (logs ++ [_]). rewrite Ht, <-(assoc_L (++)). split; [done|].
    apply Forall_app. split; [done|]. repeat constructor. by eexists _, _.
Qed.

(** The mode is chosen by what is found at the path. *)
Lemma file_mode_run st :
  _get_file_mode self st = (Ok (mode_of (files st !! filename self)), st).
Proof.
  unfold _get_file_mode, path_exists, mode_of. run.
  by destruct (files st !! filename self) as [[?|? []]|].
Qed.

(** The [with] block leaves the section, followed by the old content as
    it was read and by what the old file held beyond that. *)
Lemma write_section_buf hp version data_to_write old :
  getitem (config self) "header_prefix" = Ok (JStr hp) →
  ∃ f,
    write_section self version data_to_write {| buf := old; pos := 0 |}
    = (Ok tt, f)
    ∧ buf f = prepended hp version data_to_write old.
Proof.
  intros Hhp. unfold write_section, f_read. simpl. rewrite Hhp. simpl.
  rewrite ?str_drop_0. eexists. split; [reflexivity|].
  set (f0 := f_seek 0 _).
  assert (wrote "" old f0) as H0 by by apply wrote_seek.
  rewrite str_app_assoc. fold (header_line hp version).
  apply (wrote_write _ _ (header_line hp version +:+ Py.LF)) in H0.
  apply (wrote_write _ _
    (Py.repeat_str "=" (String.length (header_line hp version)))) in H0.
  apply (wrote_write _ _ Py.LF) in H0.
  apply (wrote_groups _ _ data_to_write) in H0.
  rewrite str_app_nil_l, !str_app_assoc in H0.
  fold (section_text hp version data_to_write) in H0.
  unfold prepended, written.
  destruct (Py.truthy_str (Py.universal_newlines old)) eqn:Hold.
  - apply (wrote_write _ _ (Py.LF +:+ Py.LF)),
      (wrote_write _ _ (Py.universal_newlines old)) in H0.
    rewrite !str_app_assoc in H0. by destruct H0 as [-> _].
  - rewrite str_app_nil_r. by destruct H0 as [-> _].
Qed.

(** A block that fails on the header prefix has written nothing. *)
Lemma write_section_raise e version data_to_write old :
  (header_prefix ← getitem (config self) "header_prefix";
   add_str header_prefix " ") = Raise e →
  ∃ f,
    write_section self version data_to_write {| buf := old; pos := 0 |}
    = (Raise e, f)
    ∧ buf f = old.
Proof.
  intros Hhp. unfold write_section, f_read. simpl. rewrite Hhp.
  by eexists.
Qed.

(** Opening the changelog in the mode chosen for it. *)
Lemma open_changelog st old :
  old_content (files st !! filename self) = Some old →
  open_ (filename self) (mode_of (files st !! filename self)) st
  = (Ok {| buf := old; pos := 0 |},
     {| files := <[filename self := File old]> (files st);
        trace := trace st ++
          [Opened (filename self) (mode_of (files st !! filename self))] |}).
Proof.
  unfold open_, old_content, mode_of.
  destruct (files st !! filename self) as [[content|e ex]|] eqn:Hf;
    intros [= <-]; simpl; [|done].
  by rewrite insert_id.
Qed.

(** A run that resolves a version and fetches pull requests opens the
    file, in the mode its existence asks for, and leaves the section
    prepended to it. *)
Lemma write_changelog_run st st0 st1 version prs data hp old :
  _get_version_number json_loads self st = (Ok version, st0) →
  version ≠ "" →
  _get_pull_requests_after_last_release self st0 = (Ok prs, st1) →
  prs ≠ [] →
  _parse_data (config self) prs = Ok data →
  getitem (config self) "header_prefix" = Ok (JStr hp) →
  old_content (files st !! filename self) = Some old →
  write_changelog json_loads self st =
    (Ok tt,
     {| files :=
          <[filename self := File (prepended hp version data old)]>
            (files st);
        trace :=
          trace st1 ++
            [Opened (filename self)
               (mode_of (files st !! filename self))] |}).
Proof.
  intros Hv Hne Hfetch Hprs Hdata Hhp Hold. unfold write_changelog.
  unfold mbind at 1, M_bind at 1. rewrite Hv.
  apply truthy_str_true in Hne as ->. simpl.
  unfold mbind at 1, M_bind at 1. rewrite Hfetch.
  apply truthy_list_true in Hprs as ->. simpl.
  apply version_frame in Hv as ->.
  apply pull_requests_frame in Hfetch as [Hf _]. simpl in Hf.
  unfold mbind at 1, M_bind at 1. rewrite file_mode_run.
  unfold mbind at 1, M_bind at 1, lift. rewrite Hdata, Hf.
  unfold with_open. unfold mbind at 1, M_bind at 1.
  assert (old_content (files st1 !! filename self) = Some old) as Hold1
    by by rewrite Hf.
  pose proof (open_changelog st1 old Hold1) as Hopen.
  rewrite Hf in Hopen. rewrite Hopen.
  destruct (write_section_buf hp version data old Hhp) as (f & -> & Hbuf).
  unfold close. run. by rewrite Hbuf, insert_insert_eq.
Qed.

(** Without a version, the run logs a warning and stops. *)
Lemma write_changelog_no_version st st0 :
  _get_version_number json_loads self st = (Ok "", st0) →
  ∃ msg, write_changelog json_loads self st =
    (Ok tt,
     {| files := files st;
        trace := trace st ++
          [Opened (event_path self) ReadOnly; Logged WARNING msg] |}).
Proof.
  intros Hv. unfold write_changelog. unfold mbind at 1, M_bind at 1.
  rewrite Hv. apply version_frame in Hv as ->. run.
  rewrite <-(assoc_L (++)). eauto.
Qed.

End RunFacts.

(** ** Documents of the data model *)

Section TypedFacts.

Lemma mapM_as_str ls labels :
  mapM as_str ls = Some labels → ls = JStr <$> labels.
Proof.
  rewrite mapM_Some. induction 1 as [|v s ls labels Hv _ IH]; [done|].
  destruct v; simplify_eq/=. by f_equal.
Qed.

Lemma as_group_inv g c :
  as_group g = Some c →
  ∃ d ls,
    g = JObj d
    ∧ d !! "title" = Some (JStr (gc_title c))
    ∧ d !! "labels" = Some (JArr ls)
    ∧ mapM as_str ls = Some (gc_labels c).
Proof.
  destruct g as [| | | | |d]; try done. simpl.
  destruct (d !! "title") as [[| | |t| |]|] eqn:Ht; try done. simpl.
  destruct (d !! "labels") as [[| | | |ls|]|] eqn:Hl; try done. simpl.
  destruct (mapM as_str ls) as [labels|] eqn:Hm; [|done]. simpl.
  intros [= <-]. by exists d, ls.
Qed.

Lemma as_config_inv doc config :
  as_config doc = Some config →
  ∃ d l,
    doc = JObj d
    ∧ d !! "header_prefix" = Some (JStr (header_prefix config))
    ∧ d !! "group_config" = Some (JArr l)
    ∧ mapM as_group l = Some (group_config config).
Proof.
  destruct doc as [| | | | |d]; try done. simpl.
  destruct (d !! "header_prefix") as [[| | |hp| |]|] eqn:Hh; try done. simpl.
  destruct (d !! "group_config") as [[| | | |l|]|] eqn:Hg; try done. simpl.
  destruct (mapM as_group l) as [gc|] eqn:Hm; [|done]. simpl.
  intros [= <-]. by exists d, l.
Qed.

(** Every configuration of the data model has a document. *)
Lemma as_str_strings labels : mapM as_str (JStr <$> labels) = Some labels.
Proof.
  apply mapM_Some. induction labels as [|l labels IH]; by constructor.
Qed.

Lemma as_group_document c : as_group (group_document c) = Some c.
Proof.
  unfold as_group, group_document.
  rewrite lookup_insert_eq. simpl.
  rewrite lookup_insert_ne by done. rewrite lookup_singleton_eq.
  simpl. rewrite as_str_strings. by destruct c.
Qed.

Lemma as_config_document config : as_config (document config) = Some config.
Proof.
  unfold as_config, document.
  rewrite lookup_insert_eq. simpl.
  rewrite lookup_insert_ne by done. rewrite lookup_singleton_eq. simpl.
  assert (mapM as_group (group_document <$> group_config config)
          = Some (group_config config)) as ->.
  { apply mapM_Some. induction (group_config config) as [|c gc IH];
      constructor; [apply as_group_document|done]. }
  by destruct config.
Qed.

(** The header prefix of a document of the data model is a string. *)
Lemma typed_header_prefix doc config :
  as_config doc = Some config →
  getitem doc "header_prefix" = Ok (JStr (header_prefix config)).
Proof.
  intros (d & l & -> & Hh & _)%as_config_inv. simpl. by rewrite Hh.
Qed.

Lemma typed_title g c :
  as_group g = Some c → getitem g "title" = Ok (JStr (gc_title c)).
Proof. intros (d & ls & -> & Ht & _)%as_group_inv. simpl. by rewrite Ht. Qed.

Lemma existsb_label_in labels pr :
  existsb (λ label, label_in label pr) (JStr <$> labels) = carries labels pr.
Proof.
  unfold carries. induction labels as [|l labels IH]; [done|].
  simpl. f_equal. apply IH.
Qed.

(** On a group of the data model, the test of the loop is whether the
    pull request carries a label of the group. *)
Lemma typed_matches g c pr :
  as_group g = Some c →
  any_label_matches g pr = Ok (carries (gc_labels c) pr).
Proof.
  intros (d & ls & -> & _ & Hl & Hm)%as_group_inv.
  apply mapM_as_str in Hm as ->.
  unfold any_label_matches. simpl. rewrite Hl. simpl.
  f_equal. apply existsb_label_in.
Qed.

End TypedFacts.

(** ** The grouping loops *)

Section GroupingFacts.

Implicit Types (pool claimed : list pull_request) (pr : pull_request).

Lemma remove_perm pr pool : pr ∈ pool → pr :: Py.remove pr pool ≡ₚ pool.
Proof.
  induction pool as [|y pool IH]; intros Hin; [by apply elem_of_nil in Hin|].
  simpl. destruct (decide (pr = y)) as [->|Hne]; [done|].
  apply elem_of_cons in Hin as [?|Hin]; [done|].
  rewrite Permutation_swap. by rewrite IH.
Qed.

Lemma length_remove pr pool : length (Py.remove pr pool) ≤ length pool.
Proof.
  induction pool as [|y pool IH]; [done|]. simpl.
  destruct (decide (pr = y)); simpl; lia.
Qed.

Lemma scan_S fuel config i pool its :
  scan (S fuel) config i pool its
  = match pool !! i with
    | None => Ok (its, pool)
    | Some pr =>
        matches ← any_label_matches config pr;
        if matches : bool then
          scan fuel config (S i) (Py.remove pr pool)
            (its ++ [_get_changelog_line pr])
        else scan fuel config (S i) pool its
    end.
Proof. done. Qed.

(** The loop ends by running off the list, not by running out of fuel:
    fuel beyond the length of the list changes nothing. *)
Lemma scan_fuel fuel config i pool its :
  length pool ≤ fuel + i →
  scan (S fuel) config i pool its = scan fuel config i pool its.
Proof.
  revert i pool its. induction fuel as [|fuel IH]; intros i pool its Hlen.
  - simpl. by rewrite lookup_ge_None_2 by lia.
  - rewrite (scan_S (S fuel) config i pool its), (scan_S fuel config i pool its).
    destruct (pool !! i) as [pr|]; [|done].
    destruct (any_label_matches config pr) as [[]|e]; simpl; [| |done];
      apply IH.
    + pose proof (length_remove pr pool). lia.
    + lia.
Qed.

Lemma scan_enough_fuel fuel config pool its :
  length pool ≤ fuel →
  scan fuel config 0 pool its = scan (length pool) config 0 pool its.
Proof.
  intros Hlen. replace fuel with ((fuel - length pool) + length pool) by lia.
  induction (fuel - length pool) as [|extra IH]; [done|].
  rewrite <-IH. apply scan_fuel. lia.
Qed.

(** On a group of the data model, [scan] renders what [claim] claims,
    and leaves the same list. *)
Lemma scan_claim g c fuel i pool claimed :
  as_group g = Some c →
  scan fuel g i pool (map _get_changelog_line claimed)
  = Ok (map _get_changelog_line (claim fuel (gc_labels c) i pool claimed).1,
        (claim fuel (gc_labels c) i pool claimed).2).
Proof.
  intros Hg. revert i pool claimed.
  induction fuel as [|fuel IH]; intros i pool claimed; [done|].
  rewrite scan_S. simpl.
  destruct (pool !! i) as [pr|]; [|done].
  rewrite (typed_matches g c pr Hg). simpl.
  destruct (carries (gc_labels c) pr); [|done].
  by rewrite <-IH, map_app.
Qed.

(** A pass moves records from the list to the group and loses none. *)
Lemma claim_perm fuel labels i pool claimed :
  (claim fuel labels i pool claimed).1 ++ (claim fuel labels i pool claimed).2
  ≡ₚ claimed ++ pool.
Proof.
  revert i pool claimed.
  induction fuel as [|fuel IH]; intros i pool claimed; [done|]. simpl.
  destruct (pool !! i) as [pr|] eqn:Hi; [|done].
  destruct (carries labels pr); [|done].
  rewrite IH, <-(assoc_L (++)). simpl.
  by rewrite (remove_perm pr pool) by by eapply list_elem_of_lookup_2.
Qed.

(** Every record a pass claims carries a label of the group. *)
Lemma claim_matches fuel labels i pool claimed :
  Forall (λ pr, carries labels pr = true) claimed →
  Forall (λ pr, carries labels pr = true)
    (claim fuel labels i pool claimed).1.
Proof.
  revert i pool claimed.
  induction fuel as [|fuel IH]; intros i pool claimed Hc; [done|]. simpl.
  destruct (pool !! i) as [pr|]; [|done].
  destruct (carries labels pr) eqn:Hm; [|by apply IH].
  apply IH, Forall_app. split; [done|]. by apply Forall_singleton.
Qed.

Lemma claims_perm gc pool :
  concat (claims gc pool).1 ++ (claims gc pool).2 ≡ₚ pool.
Proof.
  revert pool. induction gc as [|c gc IH]; intros pool; [done|]. simpl.
  pose proof (claim_perm (length pool) (gc_labels c) 0 pool []) as Hc.
  destruct (claim _ _ _ _ _) as [claimed pool']. simpl in Hc.
  specialize (IH pool'). destruct (claims gc pool') as [parts leftover].
  simpl in *. by rewrite <-(assoc_L (++)), IH.
Qed.

Lemma claims_length gc pool : length (claims gc pool).1 = length gc.
Proof.
  revert pool. induction gc as [|c gc IH]; intros pool; [done|]. simpl.
  destruct (claim _ _ _ _ _) as [claimed pool'].
  specialize (IH pool'). destruct (claims gc pool') as [parts leftover].
  simpl in *. by rewrite IH.
Qed.

(** The records of each group carry a label of that group. *)
Lemma claims_matches gc pool :
  Forall2 (λ c part, Forall (λ pr, carries (gc_labels c) pr = true) part)
    gc (claims gc pool).1.
Proof.
  revert pool. induction gc as [|c gc IH]; intros pool; [constructor|].
  simpl.
  pose proof (claim_matches (length pool) (gc_labels c) 0 pool []
                (Forall_nil_2 _)) as Hc.
  destruct (claim _ _ _ _ _) as [claimed pool']. simpl in Hc.
  specialize (IH pool'). destruct (claims gc pool') as [parts leftover].
  by constructor.
Qed.

(** On groups of the data model, the groups [parse_groups] adds hold the
    lines of the records [claims] lists, under the titles of the
    configuration, and the list it leaves is the one [claims] leaves. *)
Lemma parse_groups_claims l gc pool data :
  mapM as_group l = Some gc →
  parse_groups l pool data
  = Ok (data ++ zip_with configured gc (claims gc pool).1,
        (claims gc pool).2).
Proof.
  rewrite mapM_Some. intros Hl. revert pool data.
  induction Hl as [|g c l gc Hg _ IH]; intros pool data.
  - simpl. by rewrite app_nil_r.
  - simpl. rewrite (typed_title g c Hg). simpl.
    pose proof (scan_claim g c (length pool) 0 pool [] Hg) as Hs.
    simpl in Hs. rewrite Hs. simpl.
    destruct (claim _ _ _ _ _) as [claimed pool']. simpl.
    rewrite IH. destruct (claims gc pool') as [parts leftover]. simpl.
    by rewrite <-(assoc_L (++)).
Qed.

(** On a document of the data model, [_parse_data] returns, and what it
    returns is told by the records claimed. *)
Lemma parse_data_typed doc config prs :
  as_config doc = Some config →
  _parse_data doc prs = Ok (grouped config prs).
Proof.
  intros (d & l & -> & _ & Hg & Hm)%as_config_inv.
  unfold _parse_data. simpl. rewrite Hg. simpl.
  pose proof (length_mapM _ _ _ Hm) as Hlen.
  destruct l as [|g l].
  - unfold grouped. by destruct (group_config config).
  - change (Py.truthy_list (g :: l)) with true. cbv iota.
    rewrite (parse_groups_claims _ _ _ _ Hm).
    unfold grouped. destruct (group_config config) as [|c gc]; [done|].
    generalize (claims (c :: gc) prs). intros [parts leftover].
    destruct leftover; simpl; by rewrite ?app_nil_r.
Qed.

Lemma zip_titles_lines (gc : list group_config_item)
    (parts : list (list pull_request)) :
  length parts = length gc →
  map (λ g, lines_of (items g)) (zip_with configured gc parts)
  = map (map _get_changelog_line) parts.
Proof.
  revert gc. induction parts as [|p parts IH]; intros [|c gc] Hlen;
    simpl in *; try done.
  f_equal. apply IH. lia.
Qed.

Lemma zip_titles_titles (gc : list group_config_item)
    (parts : list (list pull_request)) :
  length parts = length gc →
  map title (zip_with configured gc parts)
  = map (λ c, "#### " +:+ gc_title c +:+ Py.LF +:+ Py.LF) gc.
Proof.
  revert gc. induction parts as [|p parts IH]; intros [|c gc] Hlen;
    simpl in *; try done.
  f_equal. apply IH. lia.
Qed.

Lemma grouped_lines config prs :
  map (λ g, lines_of (items g)) (grouped config prs)
  = map (map _get_changelog_line) (partition_of config prs).
Proof.
  unfold grouped, partition_of.
  destruct (group_config config) as [|c gc] eqn:Hgc; [done|].
  pose proof (zip_titles_lines (c :: gc) _ (claims_length (c :: gc) prs))
    as Hz.
  destruct (claims (c :: gc) prs) as [parts leftover].
  simpl fst in *. simpl snd.
  destruct leftover as [|pr leftover]; unfold Py.truthy_list; cbv iota.
  - by rewrite app_nil_r.
  - by rewrite !map_app, Hz.
Qed.

Lemma partition_of_perm config prs :
  concat (partition_of config prs) ≡ₚ prs.
Proof.
  unfold partition_of.
  destruct (group_config config) as [|c gc]; [simpl; by rewrite app_nil_r|].
  pose proof (claims_perm (c :: gc) prs) as Hp.
  destruct (claims (c :: gc) prs) as [parts leftover]. simpl in Hp.
  destruct leftover as [|pr leftover].
  - by rewrite app_nil_r in Hp.
  - rewrite concat_app. simpl. by rewrite app_nil_r.
Qed.

Lemma elem_of_concat_2 {A} (parts : list (list A)) part x :
  part ∈ parts → x ∈ part → x ∈ concat parts.
Proof.
  induction parts as [|p parts IH]; intros Hp Hx;
    [by apply elem_of_nil in Hp|].
  simpl. apply elem_of_app. apply elem_of_cons in Hp as [->|Hp]; auto.
Qed.

Lemma elem_of_concat_1 {A} (parts : list (list A)) x :
  x ∈ concat parts → ∃ i part, parts !! i = Some part ∧ x ∈ part.
Proof.
  induction parts as [|p parts IH]; simpl; intros Hx;
    [by apply elem_of_nil in Hx|].
  apply elem_of_app in Hx as [Hx|Hx].
  - by exists 0, p.
  - destruct (IH Hx) as (i & part & Hi & Hin). by exists (S i), part.
Qed.

(** In a list of lists without a repeated element overall, an element
    lies in one list only. *)
Lemma concat_NoDup_unique {A} (parts : list (list A)) i j pi pj x :
  NoDup (concat parts) →
  parts !! i = Some pi → parts !! j = Some pj →
  x ∈ pi → x ∈ pj → i = j.
Proof.
  revert i j. induction parts as [|p parts IH]; intros i j Hnd Hi Hj Hxi Hxj;
    [done|].
  simpl in Hnd. apply NoDup_app in Hnd as (_ & Hdisj & Hnd).
  destruct i as [|i], j as [|j]; simplify_eq/=; [done|..].
  - exfalso. apply (Hdisj x Hxi), (elem_of_concat_2 _ pj); [|done].
    by eapply list_elem_of_lookup_2.
  - exfalso. apply (Hdisj x Hxj), (elem_of_concat_2 _ pi); [|done].
    by eapply list_elem_of_lookup_2.
  - f_equal. by apply IH.
Qed.

End GroupingFacts.

(** ** The version in the title (C2) *)

(** C2, as the specification states it, fails: the title
    [release  1.2.3], with two spaces, starts with "release" and its
    second whitespace-separated token is [1.2.3], but [split(' ')] yields
    an empty second element and no version is derived. *)
Lemma version_token_counterexample :
  ¬ (∀ (json_loads : string → result json) (self : ChangelogCI)
       (st st0 : state) (title : string),
       _pull_request_title json_loads self st = (Ok (JStr title), st0) →
       Py.startswith (Py.lower title) "release" = true →
       _get_version_number json_loads self st
       = (Ok (Spec.version_token title), st0)).
Proof.
  intros H.
  specialize (H Sample.loads
                (Sample.ci Sample.typed_config Sample.no_release
                   Sample.no_release)
                (Sample.no_file "release  1.2.3")
                (Sample.read (Sample.no_file "release  1.2.3"))
                "release  1.2.3").
  assert (Ok "" = Ok "1.2.3" :> result string) as Heq; [|discriminate Heq].
  apply (f_equal fst) in H; [exact H|..]; vm_compute; reflexivity.
Qed.

(** C2, amended: for a title that starts with "release" in any case, the
    version is the second element of the title cut at every single space
    (empty when two spaces follow each other), and there is none when
    the title has no second element; a title that does not start with
    "release" gives no version; and without a version [write_changelog]
    writes nothing, does not open the changelog and returns normally,
    having logged one warning.  The three titles of the specification
    behave as it says. *)
Theorem version_from_title (json_loads : string → result json)
    (self : ChangelogCI) (st st0 : state) (title : string) :
  _pull_request_title json_loads self st = (Ok (JStr title), st0) →
  (Py.startswith (Py.lower title) "release" = true →
   _get_version_number json_loads self st
   = (Ok (default "" (Py.split " " title !! 1)), st0))
  ∧ (Py.startswith (Py.lower title) "release" = false →
     _get_version_number json_loads self st = (Ok "", st0))
  ∧ (_get_version_number json_loads self st = (Ok "", st0) →
     ∃ msg, write_changelog json_loads self st =
       (Ok tt,
        {| files := files st;
           trace := trace st ++
             [Opened (event_path self) ReadOnly; Logged WARNING msg] |}))
  ∧ (title = "Release 1.2.3 notes" →
     _get_version_number json_loads self st = (Ok "1.2.3", st0))
  ∧ (title = "Fix bug" →
     _get_version_number json_loads self st = (Ok "", st0))
  ∧ (title = "release" →
     _get_version_number json_loads self st = (Ok "", st0)).
Proof.
  intros Ht. pose proof (version_of_title _ _ _ _ _ Ht) as Hv.
  simpl in Hv. split_and!.
  - intros Hs. rewrite Hs in Hv. by destruct (_ !! 1).
  - intros Hs. by rewrite Hs in Hv.
  - apply write_changelog_no_version.
  - by intros ->.
  - by intros ->.
  - by intros ->.
Qed.

(** The title with two spaces: no version, one warning, the files untouched. *)
Lemma version_from_title_witness :
  let self := Sample.ci Sample.typed_config Sample.no_release
                Sample.no_release in
  let st := Sample.old_file "release  1.2.3" in
  _get_version_number Sample.loads self st = (Ok "", Sample.read st)
  ∧ ∃ msg, write_changelog Sample.loads self st =
      (Ok tt,
       {| files := files st;
          trace := trace st ++
            [Opened "event.json" ReadOnly; Logged WARNING msg] |}).
Proof.
  intros self st.
  destruct (version_from_title Sample.loads self st (Sample.read st)
              "release  1.2.3") as (H1 & _ & H3 & _).
  - vm_compute. reflexivity.
  - assert (_get_version_number Sample.loads self st
            = (Ok "", Sample.read st)) as Hv by (rewrite H1; reflexivity).
    split; [exact Hv|]. exact (H3 Hv).
Defined.

(** ** The release lookup (C8) *)

(** C8: on status 200 [_get_latest_release_date] returns the published
    timestamp of the release; on any other status (404 when there is no
    release) it returns the empty string, logs one warning and does not
    raise. *)
Theorem latest_release_date_result (self : ChangelogCI) (st : state) :
  let response :=
    requests_get self (release_url self) (_get_request_headers self) in
  (∀ published_at,
     status_code response = 200%Z →
     body response = ReleaseBody published_at →
     _get_latest_release_date self st = (Ok published_at, st))
  ∧ (status_code response ≠ 200%Z →
     ∃ msg, _get_latest_release_date self st =
       (Ok "",
        {| files := files st; trace := trace st ++ [Logged WARNING msg] |})).
Proof.
  intros response. unfold _get_latest_release_date. fold response. split.
  - intros ts -> ->. by destruct st.
  - intros Hne. apply Z.eqb_neq in Hne as ->. run. eauto.
Qed.

(** A repository with a release, and one without. *)
Lemma latest_release_date_result_witness :
  _get_latest_release_date
    (Sample.ci Sample.typed_config Sample.released
       (Sample.found [Sample.fix_crash])) (Sample.no_file "Release 2.0.0")
  = (Ok "2020-07-01T12:00:00Z", Sample.no_file "Release 2.0.0")
  ∧ ∃ msg, _get_latest_release_date Sample.example_ci
             (Sample.no_file "Release 2.0.0") =
      (Ok "",
       {| files := files (Sample.no_file "Release 2.0.0");
          trace := trace (Sample.no_file "Release 2.0.0")
                     ++ [Logged WARNING msg] |}).
Proof.
  split.
  - apply (latest_release_date_result
             (Sample.ci Sample.typed_config Sample.released
                (Sample.found [Sample.fix_crash]))
             (Sample.no_file "Release 2.0.0"));
      reflexivity.
  - apply (latest_release_date_result Sample.example_ci
             (Sample.no_file "Release 2.0.0")).
    vm_compute. discriminate.
Defined.

(** ** Nothing fetched, nothing written (C5) *)

(** C5: when the fetch returns an empty list, [write_changelog] returns
    normally without opening the changelog (after reading the title, the
    events it adds are log records) and leaves every file as it was; and
    the fetch does return an empty list when the search answers with a
    status other than 200, or with status 200 and no pull request
    found. *)
Theorem nothing_fetched_nothing_written (json_loads : string → result json)
    (self : ChangelogCI) (st : state) :
  (∀ version st0 st1,
     _get_version_number json_loads self st = (Ok version, st0) →
     _get_pull_requests_after_last_release self st0 = (Ok [], st1) →
     ∃ st', write_changelog json_loads self st = (Ok tt, st')
       ∧ files st' = files st
       ∧ ∃ logs,
           trace st' = trace st ++ Opened (event_path self) ReadOnly :: logs
           ∧ Forall is_logged logs)
  ∧ (∀ date st0,
       _get_latest_release_date self st = (Ok date, st0) →
       let response :=
         requests_get self
           (search_url self
              (if Py.truthy_str date then "merged:>=" +:+ date else ""))
           (_get_request_headers self) in
       status_code response ≠ 200%Z
       ∨ (∃ n items, body response = SearchBody n items ∧ (n ≤ 0)%Z) →
       ∃ st1,
         _get_pull_requests_after_last_release self st = (Ok [], st1)).
Proof.
  split.
  - intros version st0 st1 Hv Hfetch. unfold write_changelog.
    unfold mbind at 1, M_bind at 1. rewrite Hv.
    apply version_frame in Hv as ->.
    destruct (Py.truthy_str version); simpl.
    + unfold mbind at 1, M_bind at 1. rewrite Hfetch. simpl.
      apply pull_requests_frame in Hfetch as (Hf & logs & Ht & Hl).
      eexists. split; [reflexivity|]. split; [done|].
      exists logs. simpl in Ht. by rewrite Ht, <-(assoc_L (++)).
    + run. eexists. split; [reflexivity|]. split; [done|].
      eexists [_]. simpl. rewrite <-(assoc_L (++)). split; [done|].
      repeat constructor. by eexists _, _.
  - intros date st0 Hrel response Hresp.
    unfold _get_pull_requests_after_last_release.
    unfold mbind at 1, M_bind at 1. rewrite Hrel. fold response.
    destruct Hresp as [Hne|(n & its & Hbody & Hn)].
    + apply Z.eqb_neq in Hne as ->. run. eauto.
    + rewrite Hbody. destruct (status_code response =? 200)%Z; run.
      * assert ((0 <? n)%Z = false) as -> by lia. run. eauto.
      * eauto.
Qed.

(** A search that finds nothing leaves the old changelog as it was. *)
Lemma nothing_fetched_nothing_written_witness :
  let self := Sample.ci Sample.typed_config Sample.no_release
                (Response 200 (SearchBody 0 [])) in
  let st := Sample.old_file "Release 2.0.0 launch" in
  ∃ st', write_changelog Sample.loads self st = (Ok tt, st')
    ∧ files st' = files st
    ∧ ∃ logs, trace st' = trace st ++ Opened "event.json" ReadOnly :: logs
        ∧ Forall is_logged logs.
Proof.
  intros self st.
  destruct (nothing_fetched_nothing_written Sample.loads self st)
    as [Hwrite _].
  destruct (nothing_fetched_nothing_written Sample.loads self
              (Sample.read st)) as [_ Hfetch].
  destruct (Hfetch "" (Sample.warned (Sample.read st))) as [st1 Hst1].
  - reflexivity.
  - right. exists 0%Z, []. split; [reflexivity|lia].
  - apply (Hwrite "2.0.0" (Sample.read st) st1); [|exact Hst1].
    vm_compute. reflexivity.
Defined.

(** ** The section is prepended (C4) *)

Section PrependFacts.

Implicit Types (s t old new : string).


(** The file a run leaves, by the old content: nothing but the section
    after an empty file; else the section, two line feeds, the old
    content as read, and the end of the old file where it was longer than
    all that. *)
Lemma prepended_cases hp version data old :
  let new := section_text hp version data in
  prepended hp version data old
  = if Py.truthy_str old then
      new +:+ Py.LF +:+ Py.LF +:+ Py.universal_newlines old
        +:+ Py.drop
              (String.length new + 2
                 + String.length (Py.universal_newlines old)) old
    else new.
Proof.
  intros new. unfold prepended, written. fold new.
  rewrite truthy_universal_newlines.
  destruct (Py.truthy_str old) eqn:Hold.
  - rewrite !str_app_assoc, !str_length_app. simpl.
    replace (String.length new
             + S (S (String.length (Py.universal_newlines old))))
      with (String.length new + 2
              + String.length (Py.universal_newlines old)) by lia.
    done.
  - apply truthy_str_false in Hold as ->.
    by rewrite str_app_nil_r, str_drop_nil, str_app_nil_r.
Qed.

(** Old content without a carriage return comes back as it was. *)
Lemma prepended_round_trip hp version data old :
  contains "013" old = false →
  prepended hp version data old
  = Spec.round_trip (section_text hp version data) old.
Proof.
  intros Hcr. rewrite prepended_cases. unfold Spec.round_trip.
  destruct (Py.truthy_str old); [|done].
  rewrite (universal_newlines_id old Hcr), str_drop_all, str_app_nil_r;
    [done|lia].
Qed.

Lemma section_text_nonempty hp version data :
  section_text hp version data ≠ "".
Proof.
  unfold section_text. intros Hnil.
  apply (f_equal String.length) in Hnil.
  rewrite !str_length_app in Hnil. simpl in Hnil. lia.
Qed.

End PrependFacts.




(** ** The layout of the section (C3) *)

Section LayoutFacts.

Lemma heading_titled t :
  heading {| title := "#### " +:+ t +:+ Py.LF +:+ Py.LF;
             items := PyList [] |}
  = "#### " +:+ t.
Proof.
  unfold heading. simpl title.
  change ("#### " +:+ t +:+ Py.LF +:+ Py.LF)
    with (("#### " +:+ t) +:+ Py.LF +:+ Py.LF).
  rewrite str_length_app.
  replace (String.length ("#### " +:+ t) + String.length (Py.LF +:+ Py.LF) - 2)
    with (String.length ("#### " +:+ t)) by (simpl; lia).
  apply str_take_app_length.
Qed.

(** The text written for a group with a heading and two line feeds for
    its title is the layout of its title line and its lines. *)
Lemma block_text_layout t its :
  (truthy_items its = Py.truthy_list (lines_of its)) →
  let g := {| title := "#### " +:+ t +:+ Py.LF +:+ Py.LF; items := its |} in
  block_text g = Spec.group_layout (heading g) (lines_of (items g))
  ∧ heading g = "#### " +:+ t
  ∧ title g = heading g +:+ Py.LF +:+ Py.LF.
Proof.
  intros Hits g.
  assert (heading g = "#### " +:+ t) as Hh by apply heading_titled.
  split_and!; [|done|by rewrite Hh].
  rewrite Hh. unfold block_text, Spec.group_layout. simpl. rewrite Hits.
  destruct (Py.truthy_list (lines_of its)); [|done].
  by rewrite !str_app_assoc.
Qed.

(** Every group [_parse_data] returns for a configuration of the data
    model is written in the layout of its title line and its lines, and
    its title is empty or the title line and two line feeds. *)
Lemma grouped_layout config prs :
  Forall (λ g,
      block_text g = Spec.group_layout (heading g) (lines_of (items g))
      ∧ (title g = "" ∧ heading g = ""
         ∨ ∃ t, heading g = "#### " +:+ t
             ∧ title g = heading g +:+ Py.LF +:+ Py.LF))
    (grouped config prs).
Proof.
  unfold grouped. destruct (group_config config) as [|c gc].
  { apply Forall_singleton. split; [done|]. by left. }
  generalize (claims (c :: gc) prs). intros [parts leftover].
  apply Forall_app. split.
  - generalize (c :: gc). clear. intros gc. simpl.
    revert parts. induction gc as [|c gc IH]; intros [|part parts]; simpl;
      try constructor; [|apply IH].
    destruct (block_text_layout (gc_title c)
                (PyList (map _get_changelog_line part)) eq_refl)
      as (H1 & H2 & H3).
    split; [exact H1|]. right. by exists (gc_title c).
  - simpl. destruct leftover as [|pr leftover]; simpl; constructor; [|done].
    destruct (block_text_layout "Other Changes" (PyMap (pr :: leftover))
                eq_refl) as (H1 & H2 & H3).
    split; [exact H1|]. right. by exists "Other Changes".
Qed.

Lemma join_layout data :
  Forall (λ g,
      block_text g = Spec.group_layout (heading g) (lines_of (items g))
      ∧ (title g = "" ∧ heading g = ""
         ∨ ∃ t, heading g = "#### " +:+ t
             ∧ title g = heading g +:+ Py.LF +:+ Py.LF)) data →
  map block_text data
  = map (λ g, Spec.group_layout (heading g) (lines_of (items g))) data.
Proof.
  induction 1 as [|g data [Hg _] _ IH]; [done|]. simpl. by rewrite Hg, IH.
Qed.

End LayoutFacts.

(** C3, as the specification states it, fails on its own example: the
    file the run leaves does not start with the header, the underline and
    "blank line, title, blank line, lines", because the title line is
    followed by two blank lines. *)
Lemma section_layout_counterexample :
  ∃ st' content,
    write_changelog Sample.loads Sample.example_ci
      (Sample.no_file "Release 2.0.0 launch") = (Ok tt, st')
    ∧ files st' !! "CHANGELOG.md" = Some (File content)
    ∧ Py.startswith content
        (Spec.section "Version:" "2.0.0"
           [("#### Bug Fixes",
             [_get_changelog_line (record_of_item Sample.fix_crash)])])
      = false.
Proof.
  eexists _, _. split_and!.
  - apply (write_changelog_run Sample.loads Sample.example_ci
             (Sample.no_file "Release 2.0.0 launch")
             (Sample.read (Sample.no_file "Release 2.0.0 launch"))
             (Sample.warned
                (Sample.read (Sample.no_file "Release 2.0.0 launch")))
             "2.0.0" [record_of_item Sample.fix_crash]
             (grouped Sample.bug_fixes [record_of_item Sample.fix_crash])
             "Version:" "");
      try (vm_compute; reflexivity); discriminate.
  - apply lookup_insert_eq.
  - vm_compute. reflexivity.
Qed.

(** C3, amended: after a run that writes, the file starts with the
    header line [<header_prefix> <version>], a line of as many [=] as the
    header line has characters, and then the text of each group in order:
    for a group with a title and at least one line, one empty line, its
    title line, two empty lines and its lines; for a group without lines,
    or without a title, one empty line and its lines, if any.  (So the
    title line of a group follows one empty line, and one more for each
    group without lines just before it.) *)
Theorem section_layout (json_loads : string → result json)
    (self : ChangelogCI) (st st0 st1 : state) (version : string)
    (prs : list pull_request) (cfg : Config) (old : string) :
  _get_version_number json_loads self st = (Ok version, st0) →
  version ≠ "" →
  _get_pull_requests_after_last_release self st0 = (Ok prs, st1) →
  prs ≠ [] →
  as_config (config self) = Some cfg →
  old_content (files st !! filename self) = Some old →
  let header := header_prefix cfg +:+ " " +:+ version in
  ∃ data st' rest,
    _parse_data (config self) prs = Ok data
    ∧ write_changelog json_loads self st = (Ok tt, st')
    ∧ files st' !! filename self
      = Some (File
          (header +:+ Py.LF
             +:+ Py.repeat_str "=" (String.length header) +:+ Py.LF
             +:+ Py.join
                   (map (λ g, Spec.group_layout (heading g)
                                (lines_of (items g))) data)
             +:+ rest))
    ∧ Forall (λ g,
          title g = "" ∧ heading g = ""
          ∨ ∃ t, heading g = "#### " +:+ t
              ∧ title g = heading g +:+ Py.LF +:+ Py.LF) data.
Proof.
  intros Hv Hne Hfetch Hprs Hcfg Hold header.
  eexists _, _, _. split; [by apply parse_data_typed|].
  split.
  { eapply write_changelog_run; try done.
    - by apply parse_data_typed.
    - by apply typed_header_prefix. }
  pose proof (grouped_layout cfg prs) as Hlay.
  simpl. split.
  - rewrite lookup_insert_eq. do 2 f_equal.
    unfold prepended, written, section_text, header_line. fold header.
    rewrite (join_layout _ Hlay). by rewrite !str_app_assoc.
  - eapply Forall_impl; [exact Hlay|]. by intros g [_ Hg].
Qed.

(** Two groups and one pull request with the label of the second: the
    title line of the second group follows two empty lines, one of them
    the text of the first group. *)
Lemma section_layout_witness :
  ∃ st' rest,
    write_changelog Sample.loads
      (Sample.ci Sample.two_groups_config Sample.no_release
         (Sample.found [Sample.add_search]))
      (Sample.no_file "Release 2.0.0 launch") = (Ok tt, st')
    ∧ files st' !! "CHANGELOG.md"
      = Some (File
          ("Version: 2.0.0" +:+ Py.LF +:+ "==============" +:+ Py.LF
             +:+ Py.LF
             +:+ (Py.LF +:+ "#### Features" +:+ Py.LF
                    +:+ Py.LF +:+ Py.LF
                    +:+ "* [#7](http://x/7): Add search" +:+ Py.LF)
             +:+ rest)).
Proof.
  destruct (section_layout Sample.loads
              (Sample.ci Sample.two_groups_config Sample.no_release
                 (Sample.found [Sample.add_search]))
              (Sample.no_file "Release 2.0.0 launch")
              (Sample.read (Sample.no_file "Release 2.0.0 launch"))
              (Sample.warned
                 (Sample.read (Sample.no_file "Release 2.0.0 launch")))
              "2.0.0" [record_of_item Sample.add_search]
              Sample.two_groups "")
    as (data & st' & rest & Hdata & Hrun & Hfile & _);
    try (vm_compute; reflexivity); try discriminate.
  exists st', rest. split; [exact Hrun|].
  injection Hdata as <-. etrans; [exact Hfile|]. reflexivity.
Defined.

(** ** Every record in one group (C9) *)

(** C9: on every configuration of the data model (each has a document,
    [as_config_document]) [_parse_data] returns, and the groups it
    returns hold the rendered lines of lists of records that together are
    a rearrangement of the fetched list: no record is dropped and none is
    rendered twice, whatever labels it matches.  When the fetched records
    are pairwise different, each lies in exactly one group. *)
Theorem parse_data_partition (doc : json) (config : Config)
    (prs : list pull_request) :
  as_config doc = Some config →
  ∃ (data : list group) (parts : list (list pull_request)),
    _parse_data doc prs = Ok data
    ∧ map (λ g, lines_of (items g)) data
      = map (map _get_changelog_line) parts
    ∧ concat parts ≡ₚ prs
    ∧ (NoDup prs →
       ∀ pr, pr ∈ prs →
         ∃ i part, parts !! i = Some part ∧ pr ∈ part
           ∧ ∀ j part', parts !! j = Some part' → pr ∈ part' → j = i).
Proof.
  intros Hdoc. exists (grouped config prs), (partition_of config prs).
  split_and!.
  - by apply parse_data_typed.
  - apply grouped_lines.
  - apply partition_of_perm.
  - intros Hnd pr Hpr.
    pose proof (partition_of_perm config prs) as Hp.
    rewrite <-Hp in Hnd, Hpr.
    destruct (elem_of_concat_1 _ _ Hpr) as (i & part & Hi & Hin).
    exists i, part. split_and!; [done..|].
    intros j part' Hj Hin'. by eapply concat_NoDup_unique.
Qed.

(** Three different pull requests and two groups: the second pull request
    lies in one group only. *)
Lemma parse_data_partition_witness :
  ∃ (data : list group) (parts : list (list pull_request)),
    _parse_data Sample.two_groups_config
      [Sample.pr1; Sample.pr2; Sample.pr3] = Ok data
    ∧ map (λ g, lines_of (items g)) data
      = map (map _get_changelog_line) parts
    ∧ ∃ i part, parts !! i = Some part ∧ Sample.pr2 ∈ part
        ∧ ∀ j part', parts !! j = Some part' → Sample.pr2 ∈ part' → j = i.
Proof.
  destruct (parse_data_partition Sample.two_groups_config Sample.two_groups
              [Sample.pr1; Sample.pr2; Sample.pr3])
    as (data & parts & Hdata & Hlines & _ & Hone).
  - reflexivity.
  - exists data, parts. split; [exact Hdata|]. split; [exact Hlines|].
    apply Hone.
    + apply (bool_decide_unpack _). vm_compute. exact I.
    + apply (bool_decide_unpack _). vm_compute. exact I.
Defined.

(** ** Leftovers and rendering (C7) *)

Section LeftoverFacts.

Implicit Types (pool claimed : list pull_request) (pr : pull_request).

Lemma remove_sublist pr pool : Py.remove pr pool `sublist_of` pool.
Proof.
  induction pool as [|y pool IH]; [done|]. simpl.
  destruct (decide (pr = y)); [by apply sublist_cons|by apply sublist_skip].
Qed.

(** Removing the element met at position [i] shifts what follows that
    position by one, wherever the first equal element lies. *)
Lemma drop_remove i pr pool :
  pool !! i = Some pr →
  drop (S i) (Py.remove pr pool) = drop (S (S i)) pool.
Proof.
  revert i. induction pool as [|y pool IH]; intros i Hi; [done|].
  simpl. destruct (decide (pr = y)) as [->|Hne]; [done|].
  destruct i as [|i]; simplify_eq/=. by apply IH.
Qed.

(** What a pass claims and what it keeps stand in the order of the
    list. *)
Lemma claim_sublist fuel labels i pool claimed :
  (claim fuel labels i pool claimed).1 `sublist_of` claimed ++ drop i pool
  ∧ (claim fuel labels i pool claimed).2 `sublist_of` pool.
Proof.
  revert i pool claimed.
  induction fuel as [|fuel IH]; intros i pool claimed.
  - simpl. split; [by apply sublist_inserts_r|done].
  - simpl. destruct (pool !! i) as [pr|] eqn:Hi.
    + rewrite (drop_S _ _ _ Hi).
      destruct (carries labels pr).
      * destruct (IH (S i) (Py.remove pr pool) (claimed ++ [pr]))
          as [H1 H2].
        rewrite (drop_remove _ _ _ Hi), <-(assoc_L (++)) in H1. split.
        -- etrans; [exact H1|]. apply sublist_app; [done|].
           apply sublist_skip.
           replace (S (S i)) with (S i + 1) by lia.
           rewrite <-drop_drop. apply sublist_drop.
        -- etrans; [exact H2|]. apply remove_sublist.
      * destruct (IH (S i) pool claimed) as [H1 H2]. split; [|done].
        etrans; [exact H1|]. apply sublist_app; [done|].
        by apply sublist_cons.
    + split; [by apply sublist_inserts_r|done].
Qed.

Lemma claims_sublist gc pool :
  Forall (λ part, part `sublist_of` pool) (claims gc pool).1
  ∧ (claims gc pool).2 `sublist_of` pool.
Proof.
  revert pool. induction gc as [|c gc IH]; intros pool; [done|]. simpl.
  destruct (claim_sublist (length pool) (gc_labels c) 0 pool []) as [H1 H2].
  rewrite drop_0 in H1. simpl in H1.
  destruct (claim _ _ _ _ _) as [claimed pool']. simpl in *.
  destruct (IH pool') as [H3 H4].
  destruct (claims gc pool') as [parts leftover]. simpl in *. split.
  - apply Forall_cons_2; [done|].
    eapply Forall_impl; [exact H3|]. intros part Hp.
    etrans; [exact Hp|exact H2].
  - etrans; [exact H4|exact H2].
Qed.

(** A record that carries no label of any group is claimed by none. *)
Lemma unmatched_not_claimed gc parts pr :
  Forall2 (λ c part, Forall (λ pr, carries (gc_labels c) pr = true) part)
    gc parts →
  Forall (λ c, carries (gc_labels c) pr = false) gc →
  pr ∉ concat parts.
Proof.
  induction 1 as [|c part gc parts Hc _ IH]; intros Hnone Hin;
    [by apply elem_of_nil in Hin|].
  apply Forall_cons in Hnone as [Hno Hnone]. simpl in Hin.
  apply elem_of_app in Hin as [Hin|Hin]; [|by apply IH].
  rewrite Forall_forall in Hc. specialize (Hc pr Hin). congruence.
Qed.

End LeftoverFacts.

(** C7: with a non-empty [group_config], the result is one group per
    configured group, under its title and holding the lines of the
    records it has claimed, each of which carries a label of that group,
    and, exactly when records are left unclaimed, a last group "Other
    Changes" that holds all of them, in the order fetched, and that the
    writer writes with its title; no record is lost, and a record that
    carries no label of any configured group is among those left.  With
    an empty [group_config] the result is a single group with an empty
    title that holds every pull request.  A pull request is rendered as
    [* [#<number>](<url>): <title>] and a line feed, the number in
    decimal. *)
Theorem leftovers_and_rendering (doc : json) (config : Config)
    (prs : list pull_request) :
  as_config doc = Some config →
  (group_config config ≠ [] →
   ∃ (parts : list (list pull_request)) (leftover : list pull_request),
     _parse_data doc prs
     = Ok (zip_with configured (group_config config) parts
             ++ (if Py.truthy_list leftover
                 then [other_changes leftover] else []))
     ∧ length parts = length (group_config config)
     ∧ Forall2 (λ c part,
           Forall (λ pr, carries (gc_labels c) pr = true) part)
         (group_config config) parts
     ∧ concat parts ++ leftover ≡ₚ prs
     ∧ leftover `sublist_of` prs
     ∧ (∀ pr, pr ∈ prs →
          Forall (λ c, carries (gc_labels c) pr = false)
            (group_config config) →
          pr ∈ leftover)
     ∧ block_text (other_changes leftover)
       = Py.LF +:+ "#### Other Changes" +:+ Py.LF +:+ Py.LF +:+ Py.LF
           +:+ Py.join (map _get_changelog_line leftover))
  ∧ (group_config config = [] →
     _parse_data doc prs = Ok [{| title := ""; items := PyMap prs |}]
     ∧ block_text {| title := ""; items := PyMap prs |}
       = Py.LF +:+ Py.join (map _get_changelog_line prs))
  ∧ (∀ pr, _get_changelog_line pr
       = "* [#" +:+ Py.str_of_int (pr_number pr) +:+ "](" +:+ pr_url pr
           +:+ "): " +:+ pr_title pr +:+ Py.LF)
  ∧ _get_changelog_line (record_of_item Sample.fix_crash)
    = "* [#5](http://x/5): Fix crash" +:+ Py.LF.
Proof.
  intros Hdoc. split_and!; [| |done|done].
  - intros Hgc. rewrite (parse_data_typed _ _ prs Hdoc). unfold grouped.
    destruct (group_config config) as [|c gc] eqn:Egc; [done|].
    pose proof (claims_perm (c :: gc) prs) as Hperm.
    pose proof (claims_length (c :: gc) prs) as Hlen.
    pose proof (claims_matches (c :: gc) prs) as Hmatch.
    destruct (claims_sublist (c :: gc) prs) as [_ Hsub].
    destruct (claims (c :: gc) prs) as [parts leftover].
    simpl fst in *. simpl snd in *.
    exists parts, leftover. split_and!; try done.
    intros pr Hpr Hnone. rewrite <-Hperm in Hpr.
    apply elem_of_app in Hpr as [Hpr|Hpr]; [|done].
    by destruct (unmatched_not_claimed _ _ _ Hmatch Hnone).
  - intros Hgc. rewrite (parse_data_typed _ _ prs Hdoc). unfold grouped.
    by rewrite Hgc.
Qed.

(** Two groups with a leftover, and the default configuration. *)
Lemma leftovers_and_rendering_witness :
  (∃ (parts : list (list pull_request)) (leftover : list pull_request),
     _parse_data Sample.two_groups_config
       [Sample.pr1; Sample.pr2; Sample.pr3]
     = Ok (zip_with configured (group_config Sample.two_groups) parts
             ++ (if Py.truthy_list leftover
                 then [other_changes leftover] else []))
     ∧ Sample.pr3 ∈ leftover)
  ∧ _parse_data _default_config [Sample.pr1; Sample.pr2]
    = Ok [{| title := ""; items := PyMap [Sample.pr1; Sample.pr2] |}].
Proof.
  split.
  - destruct (leftovers_and_rendering Sample.two_groups_config
                Sample.two_groups [Sample.pr1; Sample.pr2; Sample.pr3])
      as (Hgroups & _); [reflexivity|].
    destruct Hgroups as (parts & leftover & Hdata & _ & _ & _ & _ & Hin & _);
      [discriminate|].
    exists parts, leftover. split; [exact Hdata|]. apply Hin.
    + apply (bool_decide_unpack _). vm_compute. exact I.
    + repeat constructor.
  - apply (leftovers_and_rendering _default_config
             (MkConfig "Version:" []) [Sample.pr1; Sample.pr2]);
      reflexivity.
Defined.

(** ** First match wins (C1) *)

(** C1 does not hold of the code.  The loop removes a claimed pull
    request from the list it is iterating, so the element that follows it
    moves into its position and is never visited in that pass.  With the
    groups "Bug Fixes" (label [bug]) before "Features" (label
    [feature]), the second of two pull requests, which carries both
    labels, is placed in "Features", not in "Bug Fixes"; and with "Bug
    Fixes" alone, the second of two pull requests labelled [bug] lands in
    "Other Changes". *)
Theorem first_match_skips_neighbour :
  any_label_matches
    (JObj {[ "title" := JStr "Bug Fixes"; "labels" := JArr [JStr "bug"] ]})
    Sample.pr2 = Ok true
  ∧ any_label_matches
      (JObj {[ "title" := JStr "Features";
               "labels" := JArr [JStr "feature"] ]})
      Sample.pr2 = Ok true
  ∧ _parse_data Sample.two_groups_config [Sample.pr1; Sample.pr2]
    = Ok [{| title := "#### Bug Fixes" +:+ Py.LF +:+ Py.LF;
             items := PyList [_get_changelog_line Sample.pr1] |};
          {| title := "#### Features" +:+ Py.LF +:+ Py.LF;
             items := PyList [_get_changelog_line Sample.pr2] |}]
  ∧ any_label_matches
      (JObj {[ "title" := JStr "Bug Fixes"; "labels" := JArr [JStr "bug"] ]})
      Sample.pr4 = Ok true
  ∧ _parse_data Sample.typed_config [Sample.pr1; Sample.pr4]
    = Ok [{| title := "#### Bug Fixes" +:+ Py.LF +:+ Py.LF;
             items := PyList [_get_changelog_line Sample.pr1] |};
          {| title := "#### Other Changes" +:+ Py.LF +:+ Py.LF;
             items := PyMap [Sample.pr4] |}].
Proof. split_and!; reflexivity. Qed.

(** ** Validation of the configuration (C6, C10) *)

Section ValidationFacts.

Lemma result_unit_cases (r : result unit) : r = Ok tt ∨ ∃ e, r = Raise e.
Proof. destruct r as [[]|e]; eauto. Qed.

Lemma validate_group_ok g : validate_group g = Ok tt ↔ Spec.valid_group g.
Proof.
  unfold Spec.valid_group. split.
  - destruct g as [| | | | |d]; simpl; try done.
    destruct (truthy (dict_get d "title")) eqn:Ht; simpl; [|done].
    destruct (dict_get d "labels") as [| | | |l|] eqn:Hl; simpl; try done;
      try by repeat case_match.
    destruct l as [|x l]; simpl; [done|]. intros _.
    exists d. split_and!; [done..|]. by exists (x :: l).
  - intros (d & -> & Ht & l & Hl & Hne). simpl. rewrite Ht, Hl. simpl.
    by destruct l.
Qed.

Lemma validate_groups_ok l :
  validate_groups l = Ok tt ↔ Forall Spec.valid_group l.
Proof.
  induction l as [|g l IH]; simpl; [by split|].
  rewrite Forall_cons, <-IH, <-validate_group_ok.
  destruct (validate_group g) as [[]|e]; [tauto|].
  split; [done|]. by intros [? _].
Qed.

Lemma validate_config_ok config :
  validate_config config = Ok tt ↔ Spec.valid_config config.
Proof.
  unfold Spec.valid_config. split.
  - destruct config as [| | | | |d]; simpl; try done.
    destruct (truthy (dict_get d "header_prefix")) eqn:Hh; simpl; [|done].
    destruct (dict_get d "group_config") as [| | | |l|] eqn:Hg; try done.
    intros Hl%validate_groups_ok. exists d. split_and!; [done..|].
    by exists l.
  - intros (d & -> & Hh & l & Hg & Hl). simpl. rewrite Hh, Hg. simpl.
    by apply validate_groups_ok.
Qed.

Lemma invalid_rejects config : ¬ Spec.valid_config config → rejects config.
Proof.
  intros Hnv. destruct (result_unit_cases (validate_config config))
    as [Hok|He]; [|done].
  by apply validate_config_ok in Hok.
Qed.

End ValidationFacts.

(** C6: [validate_config] returns without raising exactly for the
    documents that are a mapping with a non-empty [header_prefix] and a
    list [group_config] of mappings that each hold a non-empty [title] and
    a non-empty list [labels]; it raises when [header_prefix] is missing,
    when [group_config] is not a list, and when an entry of
    [group_config] misses [title] or [labels]. *)
Theorem validate_config_accepts_rejects (config : json) :
  (validate_config config = Ok tt ↔ Spec.valid_config config)
  ∧ (Spec.missing config "header_prefix" → rejects config)
  ∧ (is_list (Spec.field config "group_config") = false → rejects config)
  ∧ (∀ l g,
       Spec.field config "group_config" = JArr l → g ∈ l →
       Spec.missing g "title" ∨ Spec.missing g "labels" →
       rejects config).
Proof.
  split_and!.
  - apply validate_config_ok.
  - intros Hm. apply invalid_rejects. intros (d & -> & Hh & _).
    simpl in Hm. unfold dict_get in Hh. by rewrite Hm in Hh.
  - intros Hnl. apply invalid_rejects. intros (d & -> & _ & l & Hg & _).
    simpl in Hnl. by rewrite Hg in Hnl.
  - intros l g Hg Hin Hm. apply invalid_rejects.
    intros (d & -> & _ & l' & Hg' & Hl). simpl in Hg.
    rewrite Hg in Hg'. injection Hg' as <-.
    rewrite Forall_forall in Hl.
    destruct (Hl g Hin) as (dg & -> & Ht & ls & Hls & _). simpl in Hm.
    unfold dict_get in Ht, Hls. destruct Hm as [Hm|Hm]; rewrite Hm in *; done.
Qed.

(** The example document is accepted; documents without [header_prefix],
    with a string for [group_config], and with an entry without [title]
    are rejected. *)
Lemma validate_config_accepts_rejects_witness :
  validate_config Sample.typed_config = Ok tt
  ∧ rejects (JObj {[ "group_config" := JArr [] ]})
  ∧ rejects (JObj {[ "header_prefix" := JStr "Version:";
                     "group_config" := JStr "bugs" ]})
  ∧ rejects (JObj {[ "header_prefix" := JStr "Version:";
                     "group_config" :=
                       JArr [JObj {[ "labels" := JArr [JStr "bug"] ]}] ]}).
Proof.
  split_and!.
  - apply (validate_config_accepts_rejects Sample.typed_config).
    eexists. split; [reflexivity|]. split; [reflexivity|].
    eexists. split; [reflexivity|].
    apply Forall_singleton. eexists. split; [reflexivity|].
    split; [reflexivity|]. eexists. split; [reflexivity|discriminate].
  - destruct (validate_config_accepts_rejects
                (JObj {[ "group_config" := JArr [] ]}))
      as (_ & Hmissing & _).
    apply Hmissing. reflexivity.
  - destruct (validate_config_accepts_rejects
                (JObj {[ "header_prefix" := JStr "Version:";
                         "group_config" := JStr "bugs" ]}))
      as (_ & _ & Hnolist & _).
    apply Hnolist. reflexivity.
  - destruct (validate_config_accepts_rejects
                (JObj {[ "header_prefix" := JStr "Version:";
                         "group_config" :=
                           JArr [JObj {[ "labels" := JArr [JStr "bug"] ]}] ]}))
      as (_ & _ & _ & Hentry).
    eapply Hentry.
    + reflexivity.
    + apply list_elem_of_singleton. reflexivity.
    + left. reflexivity.
Defined.

(** C10: [validate_config] tests presence, truth and container types
    only.  It accepts a document whose [header_prefix] and [title] are
    numbers and whose [labels] are a list of numbers, which is no
    configuration of the string-typed data model. *)
Theorem validation_ignores_element_types :
  ∃ (config : json) (d g : gmap string json),
    config = JObj d
    ∧ d !! "header_prefix" = Some (JInt 7)
    ∧ d !! "group_config" = Some (JArr [JObj g])
    ∧ g !! "title" = Some (JInt 3)
    ∧ g !! "labels" = Some (JArr [JInt 1; JInt 2])
    ∧ validate_config config = Ok tt
    ∧ as_config config = None.
Proof.
  eexists Sample.untyped_config, _, _. split_and!; reflexivity.
Qed.

(** * Further properties of the code *)

(** ** The configuration loader *)

Section LoaderFacts.

Variable load : string → result json.
Variable str_exn : exn → string.

Lemma default_config_valid : validate_config _default_config = Ok tt.
Proof. reflexivity. Qed.

Lemma load_valid_ok path config :
  load_valid load path = Ok config ↔
  load path = Ok config ∧ validate_config config = Ok tt.
Proof.
  unfold load_valid. destruct (load path) as [c|e]; [|by split; [|intros []]].
  destruct (validate_config c) as [[]|e] eqn:Hv.
  - split; [by intros [= <-]|by intros [[= <-] _]].
  - split; [done|]. intros [[= <-] Hv']. by rewrite Hv in Hv'.
Qed.

End LoaderFacts.

(** X1: whatever the path and whatever the file holds, [_parse_config]
    returns normally, leaves the files alone, and returns a document that
    [validate_config] accepts: either the document loaded from the given
    path, without logging anything, or the default document. *)
Theorem parse_config_returns_valid (load : string → result json)
    (str_exn : exn → string) (config_file : option string) (st : state) :
  ∃ config st',
    _parse_config load str_exn config_file st = (Ok config, st')
    ∧ validate_config config = Ok tt
    ∧ files st' = files st
    ∧ (config = _default_config
       ∨ ∃ path, config_file = Some path ∧ load path = Ok config ∧ st' = st).
Proof.
  unfold _parse_config, use_default.
  destruct config_file as [path|]; [destruct (Py.truthy_str path)|].
  - destruct (load_valid load path) as [c|e] eqn:Hl.
    + apply load_valid_ok in Hl as [Hload Hv].
      exists c, st. split_and!; [done..|]. right. by exists path.
    + run. eexists _, _. split_and!; [done..|]. by left.
  - run. eexists _, _. split_and!; [done..|]. by left.
  - run. eexists _, _. split_and!; [done..|]. by left.
Qed.

(** X2: a configuration file that cannot be loaded, or whose document
    is not of the shape the validation asks for, is reported and
    replaced: the result is the default document, and exactly two
    records are logged, an error that carries the exception and the
    warning that the default is used. *)
Theorem parse_config_falls_back (load : string → result json)
    (str_exn : exn → string) (path : string) (st : state) :
  path ≠ "" →
  (∀ config, load path = Ok config → ¬ Spec.valid_config config) →
  ∃ e,
    _parse_config load str_exn (Some path) st
    = (Ok _default_config,
       {| files := files st;
          trace := trace st ++
            [Logged ERROR ("Invalid Configuration file, error: "
                             +:+ str_exn e +:+ Py.LF);
             Logged WARNING "Using Default Config to parse changelog"] |})
    ∧ (load path = Raise e
       ∨ ∃ config, load path = Ok config ∧ validate_config config = Raise e).
Proof.
  intros Hpath Hbad. unfold _parse_config, use_default.
  apply truthy_str_true in Hpath as ->.
  destruct (load_valid load path) as [c|e] eqn:Hl.
  - apply load_valid_ok in Hl as [Hload Hv].
    apply validate_config_ok in Hv. by destruct (Hbad c Hload).
  - exists e. split.
    + run. by rewrite <-(assoc_L (++)).
    + unfold load_valid in Hl. destruct (load path) as [c|e'].
      * right. exists c. split; [done|].
        by destruct (validate_config c) as [[]|e'']; simplify_eq.
      * left. by simplify_eq.
Qed.

(** A path without a file, and a file whose document has no
    [header_prefix]. *)
Lemma parse_config_falls_back_witness :
  ∃ e,
    _parse_config
      (λ path, if String.eqb path "config.json"
               then Ok (JObj {[ "group_config" := JArr [] ]})
               else Raise (FileNotFoundError path))
      (λ _, "error") (Some "config.json") Sample.empty
    = (Ok _default_config,
       {| files := files Sample.empty;
          trace := trace Sample.empty ++
            [Logged ERROR ("Invalid Configuration file, error: "
                             +:+ "error" +:+ Py.LF);
             Logged WARNING "Using Default Config to parse changelog"] |})
    ∧ e = KeyError "Configuration Must Contain header_prefix".
Proof.
  destruct (parse_config_falls_back
              (λ path, if String.eqb path "config.json"
                       then Ok (JObj {[ "group_config" := JArr [] ]})
                       else Raise (FileNotFoundError path))
              (λ _, "error") "config.json" Sample.empty)
    as (e & Hrun & [Hload|(c & Hload & Hv)]).
  - discriminate.
  - intros c [= <-] (d & [= <-] & Hh & _). discriminate Hh.
  - discriminate Hload.
  - exists e. split; [exact Hrun|].
    injection Hload as <-. injection Hv as <-. reflexivity.
Defined.

(** ** More on the validation *)

(** X3: the entries of [group_config] are checked in order and the first
    one that does not match the schema decides the exception: validation
    of the entries raises [e] exactly when some entry raises [e] and all
    entries before it are valid; the entries after it are not looked
    at. *)
Theorem validate_groups_first_defect (l : list json) (e : exn) :
  validate_groups l = Raise e ↔
  ∃ before g after,
    l = before ++ g :: after
    ∧ Forall Spec.valid_group before
    ∧ validate_group g = Raise e.
Proof.
  induction l as [|g l IH]; simpl.
  - split; [done|]. intros (before & g & after & Hl & _). by destruct before.
  - destruct (validate_group g) as [[]|e'] eqn:Hg.
    + rewrite IH. split.
      * intros (before & g' & after & -> & Hb & Hg').
        exists (g :: before), g', after. split_and!; [done| |done].
        apply Forall_cons_2; [|done]. by apply validate_group_ok.
      * intros (before & g' & after & Hl & Hb & Hg').
        destruct before as [|b before]; simplify_eq/=.
        -- by rewrite Hg in Hg'.
        -- apply Forall_cons in Hb as [_ Hb]. by exists before, g', after.
    + split.
      * intros [= <-]. by exists [], g, l.
      * intros (before & g' & after & Hl & Hb & Hg').
        destruct before as [|b before]; simplify_eq/=.
        -- by rewrite Hg in Hg'.
        -- apply Forall_cons in Hb as [Hb%validate_group_ok _].
           by rewrite Hg in Hb.
Qed.

Section TypedValidationFacts.

Lemma validate_typed_group g c :
  as_group g = Some c →
  validate_group g = Ok tt ↔ gc_title c ≠ "" ∧ gc_labels c ≠ [].
Proof.
  intros (d & ls & -> & Ht & Hl & Hm)%as_group_inv.
  apply length_mapM in Hm.
  simpl. unfold dict_get. rewrite Ht, Hl. simpl.
  destruct (gc_title c) as [|a t]; simpl; [by split; [|intros []]|].
  destruct ls as [|x ls], (gc_labels c) as [|y labels]; simplify_eq/=;
    split; try done; by intros [].
Qed.

Lemma validate_typed_groups l gc :
  mapM as_group l = Some gc →
  validate_groups l = Ok tt ↔
  Forall (λ c, gc_title c ≠ "" ∧ gc_labels c ≠ []) gc.
Proof.
  rewrite mapM_Some. induction 1 as [|g c l gc Hg _ IH]; simpl; [by split|].
  rewrite Forall_cons, <-IH, <-(validate_typed_group g c Hg).
  destruct (validate_group g) as [[]|e]; [tauto|].
  split; [done|]. by intros [? _].
Qed.

End TypedValidationFacts.

(** X4: on a document of the string-typed data model, validation checks
    emptiness and nothing else: the document is accepted exactly when its
    [header_prefix] is not empty and every group has a title that is not
    empty and at least one label. *)
Theorem validate_typed_config (doc : json) (config : Config) :
  as_config doc = Some config →
  validate_config doc = Ok tt ↔
  header_prefix config ≠ ""
  ∧ Forall (λ c, gc_title c ≠ "" ∧ gc_labels c ≠ []) (group_config config).
Proof.
  destruct doc as [| | | | |d]; try done. simpl.
  destruct (d !! "header_prefix") as [[| | |hp| |]|] eqn:Hh; try done. simpl.
  destruct (d !! "group_config") as [[| | | |l|]|] eqn:Hg; try done. simpl.
  destruct (mapM as_group l) as [gc|] eqn:Hm; [|done]. simpl.
  intros [= <-]. simpl. unfold dict_get. rewrite Hh, Hg. simpl.
  rewrite <-(validate_typed_groups l gc Hm).
  destruct hp as [|a hp]; simpl; [by split; [|intros []]|].
  split; [done|]. by intros [].
Qed.

(** The example document: its prefix, title and labels are not empty. *)
Lemma validate_typed_config_witness :
  validate_config Sample.typed_config = Ok tt ↔
  header_prefix Sample.bug_fixes ≠ ""
  ∧ Forall (λ c, gc_title c ≠ "" ∧ gc_labels c ≠ [])
      (group_config Sample.bug_fixes).
Proof.
  apply (validate_typed_config Sample.typed_config Sample.bug_fixes).
  reflexivity.
Defined.

(** ** More on the version in the title *)

Section SplitFacts.

Implicit Types (s t w p : string) (sep c : ascii).

Lemma lower_app s t : Py.lower (s +:+ t) = Py.lower s +:+ Py.lower t.
Proof.
  induction s as [|c s IH]; [done|]. rewrite str_app_cons. simpl.
  by rewrite IH.
Qed.

Lemma startswith_nil s : Py.startswith s "" = true.
Proof. by destruct s. Qed.

Lemma startswith_cons x p y s :
  Py.startswith (String y s) (String x p)
  = if Ascii.eqb x y then Py.startswith s p else false.
Proof. done. Qed.

Lemma startswith_app s t p :
  Py.startswith s p = true → Py.startswith (s +:+ t) p = true.
Proof.
  revert s. induction p as [|x p IH]; intros s; [by rewrite !startswith_nil|].
  destruct s as [|y s]; [done|].
  rewrite str_app_cons, !startswith_cons.
  destruct (Ascii.eqb x y); [apply IH|done].
Qed.

(** A prefix free of a character is found before that character. *)
Lemma startswith_before s t p c :
  contains c p = false →
  Py.startswith (s +:+ String c t) p = true → Py.startswith s p = true.
Proof.
  revert s. induction p as [|x p IH]; intros s; [by rewrite !startswith_nil|].
  simpl. destruct (Ascii.eqb x c) eqn:Hxc; [done|]. intros Hp.
  destruct s as [|y s].
  - rewrite str_app_nil_l, startswith_cons. by rewrite Hxc.
  - rewrite str_app_cons, !startswith_cons.
    destruct (Ascii.eqb x y); [by apply IH|done].
Qed.

Lemma split_one sep w : contains sep w = false → Py.split sep w = [w].
Proof.
  induction w as [|c w IH]; simpl; [done|].
  destruct (Ascii.eqb c sep); [done|]. intros Hw. by rewrite IH.
Qed.

Lemma split_cut sep w s :
  contains sep w = false →
  Py.split sep (w +:+ String sep s) = w :: Py.split sep s.
Proof.
  induction w as [|c w IH]; simpl.
  - intros _. rewrite ?str_app_nil_l. simpl. by rewrite Ascii.eqb_refl.
  - destruct (Ascii.eqb c sep) eqn:Hc; [done|]. intros Hw.
    by rewrite IH.
Qed.

(** A string is its first element alone, or its first element, a
    separator and the rest. *)
Lemma split_first sep s :
  ∃ w, contains sep w = false
    ∧ (s = w ∧ Py.split sep s = [w]
       ∨ ∃ s', s = w +:+ String sep s'
           ∧ Py.split sep s = w :: Py.split sep s').
Proof.
  induction s as [|c s (w & Hw & IH)].
  - exists "". split; [done|]. by left.
  - destruct (Ascii.eqb c sep) eqn:Hc.
    + apply Ascii.eqb_eq in Hc as ->. exists "". split; [done|]. right.
      exists s. split; [done|]. simpl. by rewrite Ascii.eqb_refl.
    + exists (String c w). split; [simpl; by rewrite Hc|].
      destruct IH as [[-> Hs]|(s' & -> & Hs)].
      * left. split; [done|]. simpl. by rewrite Hc, Hs.
      * right. exists s'. split; [done|]. simpl. by rewrite Hc, Hs.
Qed.

End SplitFacts.

(** The version read off a title that is a string. *)
Lemma version_in_characterised (title v : string) :
  v ≠ "" →
  version_in (JStr title) = v ↔
  ∃ word tail,
    title = word +:+ " " +:+ v +:+ tail
    ∧ contains " " word = false
    ∧ contains " " v = false
    ∧ Py.startswith (Py.lower word) "release" = true
    ∧ (tail = "" ∨ ∃ rest, tail = " " +:+ rest).
Proof.
  intros Hv. unfold version_in. split.
  - destruct (Py.startswith (Py.lower title) "release") eqn:Hstart; [|done].
    destruct (split_first " " title)
      as (word & Hword & [[Ht Hs]|(s' & Ht & Hs)]); rewrite Hs; [done|].
    destruct (split_first " " s')
      as (v' & Hv' & [[-> Hs']|(s'' & -> & Hs')]); rewrite Hs'; simpl;
      intros ->.
    + exists word, "". rewrite str_app_nil_r. split_and!; try done.
      * rewrite Ht, lower_app in Hstart.
        by apply (startswith_before _ _ _ " ") in Hstart.
      * by left.
    + exists word, (" " +:+ s''). split_and!; try done.
      * rewrite Ht, lower_app in Hstart.
        by apply (startswith_before _ _ _ " ") in Hstart.
      * right. by exists s''.
  - intros (word & tail & Ht & Hword & Hvs & Hstart & Htail).
    rewrite Ht, lower_app, (startswith_app _ _ _ Hstart).
    change (word +:+ " " +:+ v +:+ tail)
      with (word +:+ String " " (v +:+ tail)).
    rewrite (split_cut _ _ _ Hword). simpl.
    destruct Htail as [->|[rest ->]].
    + by rewrite str_app_nil_r, split_one.
    + change (v +:+ " " +:+ rest) with (v +:+ String " " rest).
      by rewrite split_cut.
Qed.

(** X5: a version [v] is derived exactly from the titles of the form
    [<word> <v>] or [<word> <v> <anything>], with single spaces, where
    the word has no space and starts with "release" in any case (so
    "Releases" and "release-candidate" count as well) and [v] has no
    space. *)
Theorem version_characterised (json_loads : string → result json)
    (self : ChangelogCI) (st st0 : state) (title v : string) :
  _pull_request_title json_loads self st = (Ok (JStr title), st0) →
  v ≠ "" →
  _get_version_number json_loads self st = (Ok v, st0) ↔
  ∃ word tail,
    title = word +:+ " " +:+ v +:+ tail
    ∧ contains " " word = false
    ∧ contains " " v = false
    ∧ Py.startswith (Py.lower word) "release" = true
    ∧ (tail = "" ∨ ∃ rest, tail = " " +:+ rest).
Proof.
  intros Ht Hv. pose proof (version_of_title _ _ _ _ _ Ht) as Hrun.
  rewrite Hrun. etrans; [|exact (version_in_characterised title v Hv)].
  split; [intros [= Heq]; exact Heq|by intros ->].
Qed.

(** The documented form of a title, and a longer first word. *)
Lemma version_characterised_witness :
  let self := Sample.ci Sample.typed_config Sample.no_release
                Sample.no_release in
  let st := Sample.no_file "Releases v2.1 (hotfix)" in
  _get_version_number Sample.loads self st = (Ok "v2.1", Sample.read st)
  ↔ ∃ word tail,
      "Releases v2.1 (hotfix)" = word +:+ " " +:+ "v2.1" +:+ tail
      ∧ contains " " word = false
      ∧ contains " " "v2.1" = false
      ∧ Py.startswith (Py.lower word) "release" = true
      ∧ (tail = "" ∨ ∃ rest, tail = " " +:+ rest).
Proof.
  intros self st.
  apply (version_characterised Sample.loads self st (Sample.read st)
           "Releases v2.1 (hotfix)" "v2.1").
  - vm_compute. reflexivity.
  - discriminate.
Defined.

(** ** More on a run of the script *)

Section OutcomeFacts.

Variable json_loads : string → result json.
Variable self : ChangelogCI.

(** The release lookup does the same in every state: the same result,
    the same records logged. *)
Lemma release_date_uniform :
  ∃ r logs,
    (∀ st, _get_latest_release_date self st
           = (r, {| files := files st; trace := trace st ++ logs |}))
    ∧ Forall is_logged logs
    ∧ (∀ e, r = Raise e → api_error e).
Proof.
  unfold _get_latest_release_date.
  destruct (status_code _ =? 200)%Z.
  - destruct (body _) as [ts| |].
    + exists (Ok ts), []. split_and!; [|done..].
      intros [fs tr]. run. by rewrite app_nil_r.
    + exists (Raise (KeyError "published_at")), []. split_and!; [|done|].
      * intros [fs tr]. run. by rewrite app_nil_r.
      * intros e [= <-]. by left.
    + exists (Raise (KeyError "published_at")), []. split_and!; [|done|].
      * intros [fs tr]. run. by rewrite app_nil_r.
      * intros e [= <-]. by left.
  - eexists (Ok ""), [_]. split_and!; [done| |done].
    apply Forall_singleton. by eexists _, _.
Qed.

(** So does the search. *)
Lemma pull_requests_uniform :
  ∃ r logs,
    (∀ st, _get_pull_requests_after_last_release self st
           = (r, {| files := files st; trace := trace st ++ logs |}))
    ∧ Forall is_logged logs
    ∧ (∀ e, r = Raise e → api_error e).
Proof.
  destruct release_date_uniform as (r0 & logs0 & Hrel & Hlogs0 & Herr0).
  unfold _get_pull_requests_after_last_release.
  destruct r0 as [date|e].
  2:{ exists (Raise e), logs0. split_and!; [|done|].
      - intros st. unfold mbind, M_bind. by rewrite Hrel.
      - intros e' [= <-]. by apply Herr0. }
  pose (response :=
    requests_get self
      (search_url self
         (if Py.truthy_str date then "merged:>=" +:+ date else ""))
      (_get_request_headers self)).
  assert (∀ st (k : string → M (list pull_request)),
    (_get_latest_release_date self ≫= k) st
    = k date {| files := files st; trace := trace st ++ logs0 |}) as Hbind.
  { intros st k. unfold mbind, M_bind. by rewrite Hrel. }
  destruct (status_code response =? 200)%Z eqn:Hstatus.
  - destruct (body response) as [ts|n its|] eqn:Hbody.
    + exists (Raise (KeyError "total_count")), logs0. split_and!; [|done|].
      * intros st. rewrite Hbind. fold response.
        by rewrite Hstatus, Hbody.
      * intros e [= <-]. by right.
    + destruct (0 <? n)%Z eqn:Hn.
      * exists (Ok (map record_of_item its)), logs0. split_and!; [|done..].
        intros st. rewrite Hbind. fold response.
        by rewrite Hstatus, Hbody, Hn.
      * eexists (Ok []), (logs0 ++ [_]). split_and!; [| |done].
        -- intros st. rewrite Hbind. fold response.
           rewrite Hstatus, Hbody, Hn. run.
           by rewrite <-(assoc_L (++)).
        -- apply Forall_app. split; [done|].
           apply Forall_singleton. by eexists _, _.
    + exists (Raise (KeyError "total_count")), logs0. split_and!; [|done|].
      * intros st. rewrite Hbind. fold response.
        by rewrite Hstatus, Hbody.
      * intros e [= <-]. by right.
  - eexists (Ok []), (logs0 ++ [_]). split_and!; [| |done].
    + intros st. rewrite Hbind. fold response.
      rewrite Hstatus. run. by rewrite <-(assoc_L (++)).
    + apply Forall_app. split; [done|].
      apply Forall_singleton. by eexists _, _.
Qed.

(** Reading the title depends on the state through the payload only. *)
Lemma version_uniform st version st0 :
  _get_version_number json_loads self st = (Ok version, st0) →
  ∀ st2,
    files st2 !! event_path self = files st !! event_path self →
    _get_version_number json_loads self st2
    = (Ok version,
       {| files := files st2;
          trace := trace st2 ++ [Opened (event_path self) ReadOnly] |}).
Proof.
  intros Hv st2 Hf. revert Hv. unfold _get_version_number.
  unfold mbind at 1 2, M_bind at 1 2.
  destruct (files st !! event_path self) as [[text|e ex]|] eqn:Hst.
  - rewrite (title_read _ _ st text Hst).
    rewrite (title_read _ _ st2 text) by by rewrite Hf.
    destruct (_ ≫= _) as [title|e]; [|done].
    unfold mret, M_ret. by intros [= <- _].
  - unfold _pull_request_title, with_open, open_.
    unfold mbind at 1, M_bind at 1. by rewrite Hst.
  - unfold _pull_request_title, with_open, open_.
    unfold mbind at 1, M_bind at 1. by rewrite Hst.
Qed.

(** What the expression for the header prefix gives: the prefix and a
    space when the prefix is a string, an exception otherwise. *)
Lemma header_prefix_cases :
  (∃ hp, getitem (config self) "header_prefix" = Ok (JStr hp))
  ∨ (∃ e, (header_prefix ← getitem (config self) "header_prefix";
           add_str header_prefix " ") = Raise e).
Proof.
  destruct (getitem (config self) "header_prefix") as [[| | |hp| |]|e];
    simpl; eauto.
Qed.

(** A run that has resolved a version and fetched pull requests groups
    them and goes on to the [with] block, in the state the fetch has
    left. *)
Lemma write_changelog_reach st st0 st1 version prs :
  _get_version_number json_loads self st = (Ok version, st0) →
  version ≠ "" →
  _get_pull_requests_after_last_release self st0 = (Ok prs, st1) →
  prs ≠ [] →
  files st1 = files st
  ∧ write_changelog json_loads self st
    = match _parse_data (config self) prs with
      | Ok data =>
          with_open (filename self) (mode_of (files st !! filename self))
            (write_section self version data) st1
      | Raise e => (Raise e, st1)
      end.
Proof.
  intros Hv Hne Hfetch Hprs.
  assert (files st1 = files st) as Hf.
  { apply version_frame in Hv as ->.
    by apply pull_requests_frame in Hfetch as [Hf _]. }
  split; [done|]. unfold write_changelog.
  unfold mbind at 1, M_bind at 1. rewrite Hv.
  apply truthy_str_true in Hne as ->. simpl.
  unfold mbind at 1, M_bind at 1. rewrite Hfetch.
  apply truthy_list_true in Hprs as ->. simpl.
  unfold mbind at 1, M_bind at 1. rewrite file_mode_run.
  unfold mbind at 1, M_bind at 1, lift. rewrite Hf.
  by destruct (_parse_data (config self) prs).
Qed.

(** When [open] fails, its exception leaves the [with] statement and no
    file has changed. *)
Lemma with_open_refused {A} st mode (block : file_obj → result A * file_obj)
    e ex :
  files st !! filename self = Some (Refused e ex) →
  with_open (filename self) mode block st
  = (Raise e,
     {| files := files st;
        trace := trace st ++ [Opened (filename self) mode] |}).
Proof.
  intros Hf. unfold with_open, open_. unfold mbind at 1, M_bind at 1.
  by rewrite Hf.
Qed.

(** The [with] block on the changelog that [open] has opened or created:
    it fails on the header prefix and leaves the content it has found,
    or it leaves the section prepended. *)
Lemma with_open_changelog st version data old :
  old_content (files st !! filename self) = Some old →
  ∃ r content,
    with_open (filename self) (mode_of (files st !! filename self))
      (write_section self version data) st
    = (r,
       {| files := <[filename self := File content]> (files st);
          trace := trace st ++
            [Opened (filename self)
               (mode_of (files st !! filename self))] |})
    ∧ ((∃ hp, getitem (config self) "header_prefix" = Ok (JStr hp)
           ∧ r = Ok tt ∧ content = prepended hp version data old)
       ∨ (∃ e, (header_prefix ← getitem (config self) "header_prefix";
                add_str header_prefix " ") = Raise e
            ∧ r = Raise e ∧ content = old)).
Proof.
  intros Hold. unfold with_open. unfold mbind at 1, M_bind at 1.
  rewrite (open_changelog _ _ _ Hold).
  destruct header_prefix_cases as [[hp Hhp]|[e He]].
  - destruct (write_section_buf self hp version data old Hhp)
      as (f & -> & Hbuf).
    exists (Ok tt), (prepended hp version data old). split.
    + unfold close. run. by rewrite Hbuf, insert_insert_eq.
    + left. by exists hp.
  - destruct (write_section_raise self e version data old He)
      as (f & -> & Hbuf).
    exists (Raise e), old. split.
    + unfold close. run. by rewrite Hbuf, insert_insert_eq.
    + right. by exists e.
Qed.

(** The ways a run can go: it stops before it opens the changelog; or
    [open] fails on the changelog; or the changelog is opened, and the
    [with] block fails before it writes or leaves the section
    prepended. *)
Lemma write_changelog_cases st :
  ∃ r logs,
    Forall is_logged logs
    ∧ (write_changelog json_loads self st
       = (r, {| files := files st;
                trace := trace st
                  ++ Opened (event_path self) ReadOnly :: logs |})
       ∨ (∃ e ex, files st !! filename self = Some (Refused e ex))
         ∧ write_changelog json_loads self st
           = (r, {| files := files st;
                    trace := trace st
                      ++ Opened (event_path self) ReadOnly :: logs
                      ++ [Opened (filename self)
                            (mode_of (files st !! filename self))] |})
       ∨ ∃ old content,
           old_content (files st !! filename self) = Some old
           ∧ write_changelog json_loads self st
             = (r, {| files := <[filename self := File content]> (files st);
                      trace := trace st
                        ++ Opened (event_path self) ReadOnly :: logs
                        ++ [Opened (filename self)
                              (mode_of (files st !! filename self))] |})
           ∧ (content = old
              ∨ ∃ hp version data,
                  content = prepended hp version data old)).
Proof.
  destruct (_get_version_number json_loads self st) as [[version|e] st0]
    eqn:Hv.
  2:{ exists (Raise e), []. split; [done|]. left.
      unfold write_changelog. unfold mbind at 1, M_bind at 1. rewrite Hv.
      by apply version_frame in Hv as ->. }
  destruct (Py.truthy_str version) eqn:Htrue.
  2:{ apply truthy_str_false in Htrue as ->.
      destruct (write_changelog_no_version _ _ _ _ Hv) as [msg ->].
      exists (Ok tt), [Logged WARNING msg]. split; [|by left].
      apply Forall_singleton. by eexists _, _. }
  apply truthy_str_true in Htrue.
  destruct pull_requests_uniform as (r1 & logs & Hfetch & Hlogs & _).
  pose proof (version_frame _ _ _ _ _ Hv) as ->.
  set (st0 := {| files := files st;
                 trace := trace st ++ [Opened (event_path self) ReadOnly] |})
    in *.
  assert (∀ l, (trace st ++ [Opened (event_path self) ReadOnly]) ++ l
               = trace st ++ Opened (event_path self) ReadOnly :: l) as Htr.
  { intros l. by rewrite <-(assoc_L (++)). }
  destruct r1 as [prs|e].
  2:{ exists (Raise e), logs. split; [done|]. left.
      unfold write_changelog. unfold mbind at 1, M_bind at 1. rewrite Hv.
      apply truthy_str_true in Htrue as ->. simpl.
      unfold mbind at 1, M_bind at 1. rewrite Hfetch. simpl.
      by rewrite Htr. }
  destruct prs as [|pr prs].
  { exists (Ok tt), logs. split; [done|]. left.
    unfold write_changelog. unfold mbind at 1, M_bind at 1. rewrite Hv.
    apply truthy_str_true in Htrue as ->. simpl.
    unfold mbind at 1, M_bind at 1. rewrite Hfetch. simpl.
    by rewrite Htr. }
  destruct (write_changelog_reach st st0 _ version (pr :: prs) Hv Htrue
              (Hfetch st0)) as [_ Hrun]; [done|].
  simpl in Hrun.
  destruct (_parse_data (config self) (pr :: prs)) as [data|e].
  2:{ exists (Raise e), logs. split; [done|]. left.
      by rewrite Hrun, Htr. }
  destruct (old_content (files st !! filename self)) as [old|] eqn:Hold.
  - destruct (with_open_changelog
                {| files := files st;
                   trace := (trace st ++ [Opened (event_path self) ReadOnly])
                              ++ logs |}
                version data old Hold) as (r & content & Hw & Hcases).
    exists r, logs. split; [done|]. right. right.
    exists old, content. split; [done|]. split.
    + rewrite Hrun. simpl in Hw. rewrite Hw.
      by rewrite <-(assoc_L (++)), Htr.
    + destruct Hcases as [(hp & _ & _ & ->)|(e & _ & _ & ->)]; eauto.
  - destruct (files st !! filename self) as [[old|e ex]|] eqn:Hfile;
      try done.
    exists (Raise e), logs. split; [done|]. right. left. split; [eauto|].
    rewrite Hrun.
    rewrite (with_open_refused _ _ _ e ex) by done.
    simpl. by rewrite <-(assoc_L (++)), Htr.
Qed.

End OutcomeFacts.

(** X6: what becomes of a run that has resolved a version, fetched pull
    requests and grouped them, when the changelog cannot be written.
    When [open] fails on the changelog (it is a directory, or lies in a
    directory that does not exist), the exception of [open] leaves the
    run and no file has changed.  When the [header_prefix] of the
    configuration is no string (validation accepts any true value), the
    run raises [TypeError] inside the [with] block, before it writes: an
    existing changelog keeps its content, but a changelog that did not
    exist has been created and is left behind empty. *)
Theorem write_changelog_failures (json_loads : string → result json)
    (self : ChangelogCI) (st st0 st1 : state) (version : string)
    (prs : list pull_request) (data : list group) :
  _get_version_number json_loads self st = (Ok version, st0) →
  version ≠ "" →
  _get_pull_requests_after_last_release self st0 = (Ok prs, st1) →
  prs ≠ [] →
  _parse_data (config self) prs = Ok data →
  (∀ e ex,
     files st !! filename self = Some (Refused e ex) →
     write_changelog json_loads self st
     = (Raise e,
        {| files := files st;
           trace := trace st1 ++
             [Opened (filename self)
                (if ex then ReadWrite else CreateReadWrite)] |}))
  ∧ (∀ v,
       getitem (config self) "header_prefix" = Ok v →
       (∀ hp, v ≠ JStr hp) →
       (∀ old,
          files st !! filename self = Some (File old) →
          ∃ msg, write_changelog json_loads self st
            = (Raise (TypeError msg),
               {| files := files st;
                  trace := trace st1 ++
                    [Opened (filename self) ReadWrite] |}))
       ∧ (files st !! filename self = None →
          ∃ msg, write_changelog json_loads self st
            = (Raise (TypeError msg),
               {| files := <[filename self := File ""]> (files st);
                  trace := trace st1 ++
                    [Opened (filename self) CreateReadWrite] |}))).
Proof.
  intros Hv Hne Hfetch Hprs Hdata.
  destruct (write_changelog_reach _ _ _ _ _ _ _ Hv Hne Hfetch Hprs)
    as [Hf Hrun].
  rewrite Hdata in Hrun. split.
  - intros e ex Hfile. rewrite Hrun.
    rewrite (with_open_refused _ _ _ _ e ex) by by rewrite Hf.
    by rewrite Hf, Hfile.
  - intros v Hhp Hv'.
    assert (∃ msg, (header_prefix ← getitem (config self) "header_prefix";
                    add_str header_prefix " ") = Raise (TypeError msg))
      as [msg Hmsg].
    { rewrite Hhp. destruct v as [| | |hp| |]; simpl; eauto.
      by destruct (Hv' hp). }
    assert (∀ old,
      old_content (files st !! filename self) = Some old →
      write_changelog json_loads self st
      = (Raise (TypeError msg),
         {| files := <[filename self := File old]> (files st);
            trace := trace st1 ++
              [Opened (filename self)
                 (mode_of (files st !! filename self))] |})) as Hwith.
    { intros old Hold. rewrite Hrun.
      destruct (with_open_changelog self st1 version data old)
        as (r & content & Hw & [(hp & Hhp' & _)|(e & He & -> & ->)]).
      - by rewrite Hf.
      - rewrite Hhp in Hhp'. injection Hhp' as ->. by destruct (Hv' hp).
      - rewrite Hf in Hw. rewrite Hw. rewrite Hmsg in He. by injection He as <-. }
    split.
    + intros old Hfile. exists msg. rewrite (Hwith old) by by rewrite Hfile.
      by rewrite Hfile, insert_id.
    + intros Hfile. exists msg. rewrite (Hwith "") by by rewrite Hfile.
      by rewrite Hfile.
Qed.

(** The changelog is a directory: the run raises [IsADirectoryError].
    The header prefix is the number 7 and there is no changelog: the run
    raises [TypeError] and leaves an empty changelog. *)
Lemma write_changelog_failures_witness :
  (∃ st',
     write_changelog Sample.loads Sample.example_ci
       (Sample.directory "Release 2.0.0 launch")
     = (Raise (IsADirectoryError "CHANGELOG.md"), st')
     ∧ files st' = files (Sample.directory "Release 2.0.0 launch"))
  ∧ validate_config Sample.numbered_config = Ok tt
  ∧ ∃ msg st',
      write_changelog Sample.loads
        (Sample.ci Sample.numbered_config Sample.no_release
           (Sample.found [Sample.fix_crash]))
        (Sample.no_file "Release 2.0.0 launch")
      = (Raise (TypeError msg), st')
      ∧ files st' !! "CHANGELOG.md" = Some (File "").
Proof.
  split_and!.
  - destruct (write_changelog_failures Sample.loads Sample.example_ci
                (Sample.directory "Release 2.0.0 launch")
                (Sample.read (Sample.directory "Release 2.0.0 launch"))
                (Sample.warned
                   (Sample.read (Sample.directory "Release 2.0.0 launch")))
                "2.0.0" [record_of_item Sample.fix_crash]
                (grouped Sample.bug_fixes [record_of_item Sample.fix_crash]))
      as [Hopen _]; try (vm_compute; reflexivity); try discriminate.
    eexists. split; [apply Hopen; reflexivity|reflexivity].
  - reflexivity.
  - destruct (write_changelog_failures Sample.loads
                (Sample.ci Sample.numbered_config Sample.no_release
                   (Sample.found [Sample.fix_crash]))
                (Sample.no_file "Release 2.0.0 launch")
                (Sample.read (Sample.no_file "Release 2.0.0 launch"))
                (Sample.warned
                   (Sample.read (Sample.no_file "Release 2.0.0 launch")))
                "2.0.0" [record_of_item Sample.fix_crash]
                [{| title := "";
                    items := PyMap [record_of_item Sample.fix_crash] |}])
      as [_ Hblock]; try (vm_compute; reflexivity); try discriminate.
    destruct (Hblock (JInt 7)) as [_ Hnew]; [reflexivity|discriminate|].
    destruct Hnew as [msg Hrun]; [reflexivity|].
    eexists msg, _. split; [exact Hrun|]. apply lookup_insert_eq.
Defined.

(** X7: whatever a run of [write_changelog] does, it changes no file but
    the changelog; an existing changelog without a carriage return keeps
    its old content at its end; and besides reading the payload and
    logging, the run calls [open] at most once more: on the changelog,
    after everything it logs, with ['r+'] when the path exists and ['w+']
    when it does not.  A run that does not get that far changes
    nothing. *)
Theorem write_changelog_frame (json_loads : string → result json)
    (self : ChangelogCI) (st : state) :
  let st' := (write_changelog json_loads self st).2 in
  (∀ other, other ≠ filename self →
     files st' !! other = files st !! other)
  ∧ (∀ old, files st !! filename self = Some (File old) →
       contains "013" old = false →
       ∃ new, files st' !! filename self = Some (File (new +:+ old)))
  ∧ ∃ logs opens,
      trace st'
      = trace st ++ Opened (event_path self) ReadOnly :: logs ++ opens
      ∧ Forall is_logged logs
      ∧ (opens = [] ∧ files st' = files st
         ∨ opens =
             [Opened (filename self)
                (mode_of (files st !! filename self))]).
Proof.
  intros st'. subst st'.
  destruct (write_changelog_cases json_loads self st)
    as (r & logs & Hlogs
        & [Hrun|[[_ Hrun]|(old & content & Hold & Hrun & Hcontent)]]);
    rewrite Hrun; simpl.
  - split_and!.
    + done.
    + intros old Hold _. exists "". by rewrite str_app_nil_l.
    + exists logs, []. rewrite app_nil_r. split_and!; [done..|]. by left.
  - split_and!.
    + done.
    + intros old Hold _. exists "". by rewrite str_app_nil_l.
    + exists logs, [Opened (filename self)
                      (mode_of (files st !! filename self))].
      split_and!; [done..|]. by right.
  - split_and!.
    + intros other Hother. by rewrite lookup_insert_ne.
    + intros old' Hfile Hcr. rewrite Hfile in Hold. injection Hold as <-.
      rewrite lookup_insert_eq.
      destruct Hcontent as [->|(hp & version & data & ->)].
      * exists "". by rewrite str_app_nil_l.
      * rewrite prepended_round_trip by done. unfold Spec.round_trip.
        destruct (Py.truthy_str old') eqn:Ht.
        -- eexists. by rewrite <-!str_app_assoc.
        -- apply truthy_str_false in Ht as ->.
           exists (section_text hp version data). by rewrite str_app_nil_r.
    + exists logs, [Opened (filename self)
                      (mode_of (files st !! filename self))].
      split_and!; [done..|]. by right.
Qed.

(** The example run on an old changelog: the old text is still at the
    end. *)
Lemma write_changelog_frame_witness :
  ∃ new,
    files (write_changelog Sample.loads Sample.example_ci
             (Sample.old_file "Release 2.0.0 launch")).2
      !! "CHANGELOG.md"
    = Some (File (new +:+ "Version: 1.0.0")).
Proof.
  destruct (write_changelog_frame Sample.loads Sample.example_ci
              (Sample.old_file "Release 2.0.0 launch"))
    as (_ & Hkeep & _).
  apply Hkeep; reflexivity.
Defined.

(** X8: the script is not idempotent.  A second run in the state the
    first one has left, with the same payload and the same answers of
    the server, prepends the same section once more to the file of the
    first run, which itself starts with the section: the file then holds
    the section, two line feeds, and the file of the first run as it is
    read, that is, unchanged when it holds no carriage return. *)
Theorem write_changelog_twice (json_loads : string → result json)
    (self : ChangelogCI) (st st0 st1 : state) (version : string)
    (prs : list pull_request) (cfg : Config) (old : string) :
  _get_version_number json_loads self st = (Ok version, st0) →
  version ≠ "" →
  _get_pull_requests_after_last_release self st0 = (Ok prs, st1) →
  prs ≠ [] →
  as_config (config self) = Some cfg →
  old_content (files st !! filename self) = Some old →
  event_path self ≠ filename self →
  ∃ data st' st'' first rest,
    _parse_data (config self) prs = Ok data
    ∧ write_changelog json_loads self st = (Ok tt, st')
    ∧ write_changelog json_loads self st' = (Ok tt, st'')
    ∧ let new := section_text (header_prefix cfg) version data in
      files st' !! filename self = Some (File first)
      ∧ first = new +:+ rest
      ∧ files st'' !! filename self
        = Some (File
            (new +:+ Py.LF +:+ Py.LF +:+ Py.universal_newlines first
               +:+ Py.drop
                     (String.length new + 2
                        + String.length (Py.universal_newlines first))
                     first))
      ∧ (contains "013" first = false →
         files st'' !! filename self
         = Some (File (new +:+ Py.LF +:+ Py.LF +:+ first))).
Proof.
  intros Hv Hne Hfetch Hprs Hcfg Hold Hpaths.
  pose proof (parse_data_typed _ _ prs Hcfg) as Hdata.
  pose proof (typed_header_prefix _ _ Hcfg) as Hhp.
  destruct (pull_requests_uniform self) as (r & logs & Huni & _ & _).
  assert (r = Ok prs) as ->.
  { specialize (Huni st0). rewrite Hfetch in Huni. by injection Huni. }
  pose proof (write_changelog_run json_loads self st st0 st1 version prs _
                _ old Hv Hne Hfetch Hprs Hdata Hhp Hold) as Hrun1.
  set (first := prepended (header_prefix cfg) version (grouped cfg prs) old)
    in *.
  set (st' := {| files := <[filename self := File first]> (files st);
                 trace := trace st1 ++ _ |}) in *.
  assert (files st' !! event_path self = files st !! event_path self)
    as Hevent by (simpl; by rewrite lookup_insert_ne).
  pose proof (version_uniform json_loads self st version st0 Hv st' Hevent)
    as Hv2.
  assert (old_content (files st' !! filename self) = Some first) as Hold2
    by (simpl; by rewrite lookup_insert_eq).
  pose proof (write_changelog_run json_loads self st' _ _ version prs _
                _ first Hv2 Hne (Huni _) Hprs Hdata Hhp Hold2) as Hrun2.
  assert (∃ rest,
    first = section_text (header_prefix cfg) version (grouped cfg prs)
              +:+ rest) as [rest Hrest].
  { unfold first, prepended, written. eexists. by rewrite !str_app_assoc. }
  assert (Py.truthy_str first = true) as Hfirst.
  { apply truthy_str_true. rewrite Hrest. intros Hnil.
    apply (f_equal String.length) in Hnil.
    rewrite str_length_app in Hnil.
    pose proof (section_text_nonempty (header_prefix cfg) version
                  (grouped cfg prs)) as Hnew.
    destruct (section_text _ _ _); [done|]. simpl in Hnil. lia. }
  eexists _, _, _, first, rest. split; [exact Hdata|].
  split; [exact Hrun1|]. split; [exact Hrun2|]. simpl. split_and!.
  - by rewrite lookup_insert_eq.
  - exact Hrest.
  - by rewrite lookup_insert_eq, prepended_cases, Hfirst.
  - intros Hcr.
    by rewrite lookup_insert_eq, prepended_round_trip; unfold Spec.round_trip;
      rewrite ?Hfirst.
Qed.

(** The example, run twice from scratch. *)
Lemma write_changelog_twice_witness :
  let new := section_text "Version:" "2.0.0"
               (grouped Sample.bug_fixes [record_of_item Sample.fix_crash]) in
  ∃ st' st'',
    write_changelog Sample.loads Sample.example_ci
      (Sample.no_file "Release 2.0.0 launch") = (Ok tt, st')
    ∧ write_changelog Sample.loads Sample.example_ci st' = (Ok tt, st'')
    ∧ files st' !! "CHANGELOG.md" = Some (File new)
    ∧ files st'' !! "CHANGELOG.md"
      = Some (File (new +:+ Py.LF +:+ Py.LF +:+ new)).
Proof.
  intros new.
  destruct (write_changelog_twice Sample.loads Sample.example_ci
              (Sample.no_file "Release 2.0.0 launch")
              (Sample.read (Sample.no_file "Release 2.0.0 launch"))
              (Sample.warned
                 (Sample.read (Sample.no_file "Release 2.0.0 launch")))
              "2.0.0" [record_of_item Sample.fix_crash]
              Sample.bug_fixes "")
    as (data & st' & st'' & first & rest & Hdata & Hrun1 & Hrun2
        & Hfirst & Hrest & _ & Hfile).
  - vm_compute. reflexivity.
  - discriminate.
  - vm_compute. reflexivity.
  - discriminate.
  - reflexivity.
  - reflexivity.
  - discriminate.
  - injection Hdata as <-.
    assert (first = new) as ->.
    { assert (files st' !! "CHANGELOG.md" = Some (File new)) as Hnew.
      { assert (write_changelog Sample.loads Sample.example_ci
                  (Sample.no_file "Release 2.0.0 launch")
                = (Ok tt,
                   {| files :=
                        <["CHANGELOG.md" := File new]>
                          (files (Sample.no_file "Release 2.0.0 launch"));
                      trace :=
                        trace (Sample.warned
                                 (Sample.read
                                    (Sample.no_file "Release 2.0.0 launch")))
                          ++ [Opened "CHANGELOG.md" CreateReadWrite] |}))
          as Hrun by (vm_compute; reflexivity).
        rewrite Hrun1 in Hrun. injection Hrun as ->.
        apply lookup_insert_eq. }
      assert (Some (File first) = Some (File new)) as Heq
        by (rewrite <-Hfirst; exact Hnew).
      by injection Heq. }
    exists st', st''. split; [exact Hrun1|]. split; [exact Hrun2|].
    split; [exact Hfirst|]. apply Hfile. vm_compute. reflexivity.
Defined.
(** ** More on the grouping *)

Section PassFacts.

Implicit Types (pool claimed : list pull_request) (pr : pull_request).

(** Without repeated elements, the element met at position [i] is the
    one removed. *)
Lemma remove_delete i pr pool :
  NoDup pool → pool !! i = Some pr → Py.remove pr pool = delete i pool.
Proof.
  revert i. induction pool as [|y pool IH]; intros i Hnd Hi; [done|].
  apply NoDup_cons in Hnd as [Hy Hnd]. simpl.
  destruct (decide (pr = y)) as [->|Hne].
  - destruct i as [|i]; [done|]. simpl in Hi.
    by apply list_elem_of_lookup_2 in Hi.
  - destruct i as [|i]; simplify_eq/=. f_equal. by apply IH.
Qed.

Lemma skim_cons_match labels pr pool :
  carries labels pr = true →
  skim labels (pr :: pool)
  = (pr :: (skim labels (drop 1 pool)).1,
     take 1 pool ++ (skim labels (drop 1 pool)).2).
Proof.
  intros Hm. simpl. rewrite Hm. destruct pool as [|next pool]; [done|].
  simpl. rewrite drop_0. by destruct (skim labels pool).
Qed.

Lemma skim_cons_skip labels pr pool :
  carries labels pr = false →
  skim labels (pr :: pool)
  = ((skim labels pool).1, pr :: (skim labels pool).2).
Proof. intros Hm. simpl. rewrite Hm. by destruct (skim labels pool). Qed.

(** What a pass claims from position [i] on is what [skim] claims from
    the rest of the list. *)
Lemma claim_skim_claimed fuel labels i pool claimed :
  length pool ≤ fuel + i →
  (claim fuel labels i pool claimed).1
  = claimed ++ (skim labels (drop i pool)).1.
Proof.
  revert i pool claimed.
  induction fuel as [|fuel IH]; intros i pool claimed Hlen.
  - simpl. rewrite drop_ge by lia. simpl. by rewrite app_nil_r.
  - simpl. destruct (pool !! i) as [pr|] eqn:Hi.
    + rewrite (drop_S _ _ _ Hi).
      destruct (carries labels pr) eqn:Hm.
      * rewrite IH by (pose proof (length_remove pr pool); lia).
        rewrite (drop_remove _ _ _ Hi), skim_cons_match by done.
        rewrite drop_drop. replace (S i + 1) with (S (S i)) by lia.
        by rewrite <-(assoc_L (++)).
      * rewrite IH by lia. by rewrite skim_cons_skip.
    + rewrite drop_ge by (by apply lookup_ge_None). simpl.
      by rewrite app_nil_r.
Qed.

(** Without repeated elements, what a pass keeps is what it has kept
    before position [i] and what [skim] keeps of the rest. *)
Lemma claim_skim_kept fuel labels i pool claimed :
  NoDup pool →
  length pool ≤ fuel + i →
  (claim fuel labels i pool claimed).2
  = take i pool ++ (skim labels (drop i pool)).2.
Proof.
  revert i pool claimed.
  induction fuel as [|fuel IH]; intros i pool claimed Hnd Hlen.
  - simpl. rewrite drop_ge, take_ge by lia. simpl. by rewrite app_nil_r.
  - simpl. destruct (pool !! i) as [pr|] eqn:Hi.
    + rewrite (drop_S _ _ _ Hi).
      destruct (carries labels pr) eqn:Hm.
      * pose proof (remove_delete _ _ _ Hnd Hi) as Hrm.
        rewrite IH.
        -- rewrite (drop_remove _ _ _ Hi), skim_cons_match by done.
           rewrite drop_drop. replace (S i + 1) with (S (S i)) by lia.
           simpl snd. rewrite (assoc_L (++)). f_equal.
           apply lookup_lt_Some in Hi.
           rewrite Hrm, delete_take_drop, take_app, take_take.
           rewrite length_take_le by lia.
           rewrite Nat.min_r by lia. f_equal. f_equal. lia.
        -- apply (sublist_NoDup _ pool Hnd), remove_sublist.
        -- pose proof (length_remove pr pool). lia.
      * rewrite IH by (done || lia). rewrite skim_cons_skip by done.
        simpl. rewrite (take_S_r _ _ _ Hi), <-(assoc_L (++)). done.
    + rewrite drop_ge, take_ge by (by apply lookup_ge_None). simpl.
      by rewrite app_nil_r.
Qed.

Lemma skim_sublist labels pool :
  (skim labels pool).2 `sublist_of` pool.
Proof.
  assert (∀ n pool, length pool ≤ n →
            (skim labels pool).2 `sublist_of` pool) as H;
    [|by apply (H (length pool))].
  clear pool. induction n as [|n IH]; intros [|pr pool] Hlen;
    simpl in Hlen; try done; try lia.
  destruct (carries labels pr) eqn:Hm.
  - rewrite skim_cons_match by done. simpl snd.
    destruct pool as [|next pool]; [apply sublist_nil_l|].
    simpl. rewrite drop_0.
    apply sublist_cons, sublist_skip, IH. simpl in Hlen. lia.
  - rewrite skim_cons_skip by done. simpl snd.
    apply sublist_skip, IH. lia.
Qed.

End PassFacts.

Section GroupsFacts.

Implicit Types (pool : list pull_request) (gc : list group_config_item).

Lemma claim_skim labels pool :
  NoDup pool → claim (length pool) labels 0 pool [] = skim labels pool.
Proof.
  intros Hnd.
  pose proof (claim_skim_claimed (length pool) labels 0 pool []) as H1.
  pose proof (claim_skim_kept (length pool) labels 0 pool [] Hnd) as H2.
  rewrite drop_0 in H1, H2. simpl in H1, H2.
  destruct (claim _ _ _ _ _), (skim labels pool). simpl in *.
  f_equal; [apply H1|apply H2]; lia.
Qed.

Lemma claims_skims gc pool : NoDup pool → claims gc pool = skims gc pool.
Proof.
  revert pool. induction gc as [|c gc IH]; intros pool Hnd; [done|]. simpl.
  rewrite claim_skim by done.
  pose proof (skim_sublist (gc_labels c) pool) as Hsub.
  destruct (skim (gc_labels c) pool) as [claimed kept]. simpl in Hsub.
  by rewrite IH by by apply (sublist_NoDup _ pool).
Qed.

Lemma skim_all labels pool :
  Forall (λ pr, carries labels pr = true) pool →
  skim labels pool = (evens pool, odds pool).
Proof.
  assert (∀ n pool, length pool ≤ n →
            Forall (λ pr, carries labels pr = true) pool →
            skim labels pool = (evens pool, odds pool)) as H;
    [|by apply (H (length pool))].
  clear pool. induction n as [|n IH]; intros [|pr pool] Hlen Hall;
    simpl in Hlen; try done; try lia.
  apply Forall_cons in Hall as [Hm Hall].
  rewrite skim_cons_match by done.
  destruct pool as [|next pool]; [done|].
  apply Forall_cons in Hall as [_ Hall].
  simpl in Hlen. change (drop 1 (next :: pool)) with pool.
  rewrite (IH pool); [by destruct pool|lia|done].
Qed.

Lemma claim_none fuel labels i pool claimed :
  Forall (λ pr, carries labels pr = false) pool →
  claim fuel labels i pool claimed = (claimed, pool).
Proof.
  intros Hnone. revert i.
  induction fuel as [|fuel IH]; intros i; [done|]. simpl.
  destruct (pool !! i) as [pr|] eqn:Hi; [|done].
  rewrite Forall_forall in Hnone.
  by rewrite (Hnone pr) by by eapply list_elem_of_lookup_2.
Qed.

Lemma claims_none gc pool :
  Forall (λ c, Forall (λ pr, carries (gc_labels c) pr = false)
                 pool) gc →
  claims gc pool = (replicate (length gc) [], pool).
Proof.
  induction 1 as [|c gc Hc _ IH]; [done|]. simpl.
  by rewrite claim_none, IH.
Qed.

End GroupsFacts.

Section OrderFacts.

Lemma grouped_sublists config prs :
  Forall (λ g, lines_of (items g)
               `sublist_of` map _get_changelog_line prs)
    (grouped config prs).
Proof.
  assert (Forall (λ part, part `sublist_of` prs) (partition_of config prs))
    as Hparts.
  { unfold partition_of. destruct (group_config config) as [|c gc].
    - by apply Forall_singleton.
    - destruct (claims_sublist (c :: gc) prs) as [H1 H2].
      destruct (claims (c :: gc) prs) as [parts leftover]. simpl in *.
      destruct leftover; [done|].
      apply Forall_app. split; [done|]. by apply Forall_singleton. }
  pose proof (grouped_lines config prs) as Hlines.
  revert Hparts Hlines. generalize (partition_of config prs).
  induction (grouped config prs) as [|g data IH];
    intros [|part parts] Hparts Hlines; simpl in Hlines; try done.
  injection Hlines as Hg Hdata.
  apply Forall_cons in Hparts as [Hpart Hparts].
  apply Forall_cons_2; [|by eapply IH].
  rewrite Hg. by apply (fmap_sublist _get_changelog_line part prs).
Qed.

End OrderFacts.

(** X9: within every group [_parse_data] returns, the lines stand in
    the order in which their pull requests were fetched: the lines of a
    group are the lines of the whole list with some of them left out. *)
Theorem groups_keep_fetch_order (doc : json) (config : Config)
    (prs : list pull_request) :
  as_config doc = Some config →
  ∃ data,
    _parse_data doc prs = Ok data
    ∧ Forall (λ g, lines_of (items g)
                   `sublist_of` map _get_changelog_line prs) data.
Proof.
  intros Hdoc. exists (grouped config prs).
  split; [by apply parse_data_typed|apply grouped_sublists].
Qed.

(** Two groups and three pull requests. *)
Lemma groups_keep_fetch_order_witness :
  ∃ data,
    _parse_data Sample.two_groups_config
      [Sample.pr1; Sample.pr2; Sample.pr3] = Ok data
    ∧ Forall (λ g, lines_of (items g)
                   `sublist_of`
                   map _get_changelog_line
                     [Sample.pr1; Sample.pr2; Sample.pr3]) data.
Proof.
  apply (groups_keep_fetch_order Sample.two_groups_config Sample.two_groups
           [Sample.pr1; Sample.pr2; Sample.pr3]).
  reflexivity.
Defined.

(** X10: on pull requests that are pairwise different, [_parse_data] is
    this structural recursion: each configured group in turn goes
    through what the groups before have kept, claims a pull request that
    carries one of its labels and then passes over the next one unseen;
    what the last group keeps is "Other Changes". *)
Theorem parse_data_structural (doc : json) (config : Config)
    (prs : list pull_request) :
  as_config doc = Some config →
  NoDup prs →
  group_config config ≠ [] →
  _parse_data doc prs
  = Ok (zip_with configured (group_config config)
          (skims (group_config config) prs).1
        ++ (if Py.truthy_list (skims (group_config config) prs).2
            then [other_changes (skims (group_config config) prs).2]
            else [])).
Proof.
  intros Hdoc Hnd Hgc. rewrite (parse_data_typed _ _ prs Hdoc).
  rewrite <-claims_skims by done. unfold grouped.
  by destruct (group_config config).
Qed.

(** Two groups and three pull requests: the second pull request, which
    carries the label of the first group, is passed over by it. *)
Lemma parse_data_structural_witness :
  _parse_data Sample.two_groups_config [Sample.pr1; Sample.pr2; Sample.pr3]
  = Ok [configured (GroupConfig "Bug Fixes" ["bug"]) [Sample.pr1];
        configured (GroupConfig "Features" ["feature"]) [Sample.pr2];
        other_changes [Sample.pr3]].
Proof.
  apply (parse_data_structural Sample.two_groups_config Sample.two_groups
           [Sample.pr1; Sample.pr2; Sample.pr3]).
  - reflexivity.
  - apply (bool_decide_unpack _). vm_compute. exact I.
  - discriminate.
Defined.

(** X11: when every fetched pull request carries a label of the first
    configured group, that group receives only every other one of them,
    those at the positions 0, 2, 4, ...; with that group alone and
    pairwise different pull requests, the ones at the positions 1, 3,
    5, ... all land in "Other Changes". *)
Theorem all_matching_every_other (doc : json) (config : Config)
    (c : group_config_item) (gc : list group_config_item)
    (prs : list pull_request) :
  as_config doc = Some config →
  group_config config = c :: gc →
  Forall (λ pr, carries (gc_labels c) pr = true) prs →
  ∃ rest,
    _parse_data doc prs = Ok (configured c (evens prs) :: rest)
    ∧ (gc = [] → NoDup prs →
       rest = if Py.truthy_list (odds prs)
              then [other_changes (odds prs)] else []).
Proof.
  intros Hdoc Hgc Hall. rewrite (parse_data_typed _ _ prs Hdoc).
  unfold grouped. rewrite Hgc.
  pose proof (claim_skim_claimed (length prs) (gc_labels c) 0 prs []) as H1.
  rewrite drop_0, skim_all in H1 by done. simpl in H1.
  pose proof (claim_skim (gc_labels c) prs) as H2.
  rewrite skim_all in H2 by done.
  simpl. destruct (claim _ _ _ _ _) as [claimed pool'].
  destruct (claims gc pool') as [parts leftover] eqn:Hclaims. simpl in *.
  rewrite H1 by lia. eexists. split; [reflexivity|].
  intros -> Hnd. injection (H2 Hnd) as _ ->.
  simpl in Hclaims. by injection Hclaims as <- <-.
Qed.

(** Four pull requests labelled [bug] and the group "Bug Fixes": the
    first and the third are listed under it, the second and the fourth
    under "Other Changes". *)
Lemma all_matching_every_other_witness :
  ∃ rest,
    _parse_data Sample.typed_config
      [Sample.pr1; Sample.pr2; Sample.pr4;
       PullRequest "Fix leak" 6 "http://x/6" ["bug"]]
    = Ok (configured (GroupConfig "Bug Fixes" ["bug"])
            [Sample.pr1; Sample.pr4] :: rest)
    ∧ rest = [other_changes
                [Sample.pr2; PullRequest "Fix leak" 6 "http://x/6" ["bug"]]].
Proof.
  destruct (all_matching_every_other Sample.typed_config Sample.bug_fixes
              (GroupConfig "Bug Fixes" ["bug"]) []
              [Sample.pr1; Sample.pr2; Sample.pr4;
               PullRequest "Fix leak" 6 "http://x/6" ["bug"]])
    as (rest & Hdata & Hrest).
  - reflexivity.
  - reflexivity.
  - repeat constructor.
  - exists rest. split; [exact Hdata|]. apply Hrest; [reflexivity|].
    apply (bool_decide_unpack _). vm_compute. exact I.
Defined.

(** X12: when no fetched pull request carries a label of any configured
    group (as when nothing was fetched), every configured group stays in
    the result with no lines, and is written as one empty line without
    its title; the pull requests, if there are any, are all listed under
    "Other Changes" in the order fetched. *)
Theorem none_matching_all_other (doc : json) (config : Config)
    (prs : list pull_request) :
  as_config doc = Some config →
  group_config config ≠ [] →
  Forall (λ c, Forall (λ pr, carries (gc_labels c) pr = false) prs)
    (group_config config) →
  ∃ data,
    _parse_data doc prs = Ok data
    ∧ data
      = map (λ c, configured c []) (group_config config)
        ++ (if Py.truthy_list prs then [other_changes prs] else [])
    ∧ Py.join (map block_text data)
      = Py.repeat_str Py.LF (length (group_config config))
        +:+ (if Py.truthy_list prs then block_text (other_changes prs)
             else "").
Proof.
  intros Hdoc Hgc Hnone.
  assert (grouped config prs
          = map (λ c, configured c []) (group_config config)
            ++ (if Py.truthy_list prs then [other_changes prs] else []))
    as Hdata.
  { unfold grouped. destruct (group_config config) as [|c gc] eqn:Egc;
      [done|].
    rewrite claims_none by done. cbn [fst snd]. f_equal.
    generalize (c :: gc). clear. intros l.
    induction l as [|c' l IH]; [done|]. simpl. by rewrite IH. }
  exists (grouped config prs). split; [by apply parse_data_typed|].
  split; [done|]. rewrite Hdata, map_app, join_app. f_equal.
  - clear. induction (group_config config) as [|c gc IH]; [done|].
    simpl. by rewrite IH.
  - destruct prs; [done|]. simpl. by rewrite str_app_nil_r.
Qed.

(** A pull request labelled [docs], and the two groups for [bug] and
    [feature]. *)
Lemma none_matching_all_other_witness :
  ∃ data,
    _parse_data Sample.two_groups_config [Sample.pr3] = Ok data
    ∧ data
      = [configured (GroupConfig "Bug Fixes" ["bug"]) [];
         configured (GroupConfig "Features" ["feature"]) [];
         other_changes [Sample.pr3]]
    ∧ Py.join (map block_text data)
      = Py.LF +:+ Py.LF +:+ block_text (other_changes [Sample.pr3]).
Proof.
  apply (none_matching_all_other Sample.two_groups_config Sample.two_groups
           [Sample.pr3]).
  - reflexivity.
  - discriminate.
  - repeat constructor.
Defined.

(** ** What a run asks of the server *)

(** X13: a run looks at two answers of the server and no others: the one
    for the latest release and the one for the search with the filter
    that the release lookup leads to, both asked with the headers of
    [_get_request_headers].  Two servers that agree on these two answers
    lead to the same run, whatever else they answer. *)
Theorem run_reads_two_answers (json_loads : string → result json)
    (self : ChangelogCI)
    (other : string → list (string * string) → response) (st : state) :
  other (release_url self) (_get_request_headers self)
  = requests_get self (release_url self) (_get_request_headers self) →
  (∀ date st0 st1,
     _get_latest_release_date self st0 = (Ok date, st1) →
     let url := search_url self
                  (if Py.truthy_str date then "merged:>=" +:+ date else "") in
     other url (_get_request_headers self)
     = requests_get self url (_get_request_headers self)) →
  write_changelog json_loads
    {| repository := repository self; event_path := event_path self;
       filename := filename self; config := config self;
       token := token self; requests_get := other |} st
  = write_changelog json_loads self st.
Proof.
  intros Hrel Hsearch. destruct self as [repo ev fn cfg tok get].
  unfold write_changelog. simpl in *.
  unfold mbind at 1 5, M_bind at 1 5.
  change (_get_version_number json_loads
            {| repository := repo; event_path := ev; filename := fn;
               config := cfg; token := tok; requests_get := other |} st)
    with (_get_version_number json_loads
            {| repository := repo; event_path := ev; filename := fn;
               config := cfg; token := tok; requests_get := get |} st).
  destruct (_get_version_number _ _ st) as [[version|e] st0]; [|done].
  destruct (Py.truthy_str version); simpl; [|done].
  assert (_get_pull_requests_after_last_release
            {| repository := repo; event_path := ev; filename := fn;
               config := cfg; token := tok; requests_get := other |} st0
          = _get_pull_requests_after_last_release
              {| repository := repo; event_path := ev; filename := fn;
                 config := cfg; token := tok; requests_get := get |} st0)
    as Hfetch.
  { unfold _get_pull_requests_after_last_release.
    unfold mbind, M_bind.
    assert (_get_latest_release_date
              {| repository := repo; event_path := ev; filename := fn;
                 config := cfg; token := tok; requests_get := other |} st0
            = _get_latest_release_date
                {| repository := repo; event_path := ev; filename := fn;
                   config := cfg; token := tok; requests_get := get |} st0)
      as ->.
    { unfold _get_latest_release_date, release_url, _get_request_headers
        in *. simpl in *. by rewrite Hrel. }
    destruct (_get_latest_release_date _ st0) as [[date|e] st1] eqn:Hdate;
      [|done].
    specialize (Hsearch date st0 st1 Hdate).
    unfold search_url, _get_request_headers in *. simpl in *.
    by rewrite Hsearch. }
  unfold mbind at 1 4, M_bind at 1 4. rewrite Hfetch.
  by destruct (_get_pull_requests_after_last_release _ st0)
    as [[prs|e] st1].
Qed.

(** A server that answers every other address with an error. *)
Lemma run_reads_two_answers_witness :
  write_changelog Sample.loads
    {| repository := "owner/repo"; event_path := "event.json";
       filename := "CHANGELOG.md"; config := Sample.typed_config;
       token := None;
       requests_get := λ url _,
         if bool_decide
              (url = "https://api.github.com/repos/owner/repo/releases/latest")
         then Sample.no_release
         else if bool_decide
                   (url = "https://api.github.com/search/issues?q=repo:owner/repo+is:pr+is:merged+sort:author-date-asc+&sort=merged")
         then Sample.found [Sample.fix_crash]
         else Response 500 OtherBody |}
    (Sample.old_file "Release 2.0.0 launch")
  = write_changelog Sample.loads Sample.example_ci
      (Sample.old_file "Release 2.0.0 launch").
Proof.
  apply (run_reads_two_answers Sample.loads Sample.example_ci
           (λ url _,
              if bool_decide
                   (url = "https://api.github.com/repos/owner/repo/releases/latest")
              then Sample.no_release
              else if bool_decide
                        (url = "https://api.github.com/search/issues?q=repo:owner/repo+is:pr+is:merged+sort:author-date-asc+&sort=merged")
              then Sample.found [Sample.fix_crash]
              else Response 500 OtherBody)
           (Sample.old_file "Release 2.0.0 launch")).
  - reflexivity.
  - intros date st0 st1 Hrel.
    assert (date = "") as -> by (vm_compute in Hrel; by injection Hrel).
    reflexivity.
Defined.

(** ** Validation and the types of the values *)

Section UntypedFacts.

(** On a group that validation accepts, the test of the loop returns. *)
Lemma valid_group_matches g pr :
  Spec.valid_group g → ∃ b, any_label_matches g pr = Ok b.
Proof.
  intros (d & -> & _ & l & Hl & _). unfold any_label_matches, dict_get in *.
  simpl. destruct (d !! "labels") as [v|]; simplify_eq/=. eauto.
Qed.

(** So the pass over the pull requests returns. *)
Lemma valid_group_scan g fuel i pool its :
  Spec.valid_group g → ∃ r, scan fuel g i pool its = Ok r.
Proof.
  intros Hg. revert i pool its.
  induction fuel as [|fuel IH]; intros i pool its; [by eexists|].
  rewrite scan_S. destruct (pool !! i) as [pr|]; [|by eexists].
  destruct (valid_group_matches g pr Hg) as [b ->]. simpl.
  destruct b; apply IH.
Qed.

(** The title of a group that validation accepts is there; it is a
    string or it is not. *)
Lemma valid_group_title g :
  Spec.valid_group g →
  ∃ v, getitem g "title" = Ok v ∧ Spec.field g "title" = v.
Proof.
  intros (d & -> & Ht & _). unfold dict_get in *. simpl.
  unfold dict_get. destruct (d !! "title") as [v|]; [eauto|done].
Qed.

(** The passes of groups that validation accepts return when every title
    is a string, and raise [TypeError] otherwise. *)
Lemma valid_groups_parse l pool data :
  Forall Spec.valid_group l →
  (Forall (λ g, ∃ t, Spec.field g "title" = JStr t) l
   ∧ ∃ r, parse_groups l pool data = Ok r)
  ∨ (¬ Forall (λ g, ∃ t, Spec.field g "title" = JStr t) l
     ∧ ∃ msg, parse_groups l pool data = Raise (TypeError msg)).
Proof.
  intros Hl. revert pool data.
  induction Hl as [|g l Hg _ IH]; intros pool data.
  { left. split; [done|]. by eexists. }
  destruct (valid_group_title g Hg) as (v & Hget & Hfield).
  simpl. rewrite Hget. simpl.
  assert ((∃ t, v = JStr t) ∨ (∀ t, v ≠ JStr t)) as [[t ->]|Hv]
    by (destruct v; eauto).
  - simpl.
    destruct (valid_group_scan g (length pool) 0 pool [] Hg)
      as [[its pool'] ->]. simpl.
    destruct (IH pool'
                (data ++ [{| title := ("#### " +:+ t) +:+ Py.LF +:+ Py.LF;
                             items := PyList its |}]))
      as [[Hall Hr]|[Hnot Hr]].
    + left. split; [|done]. apply Forall_cons_2; [|done]. by exists t.
    + right. split; [|done]. by intros [_ ?]%Forall_cons.
  - right. split.
    + intros [[t Ht] _]%Forall_cons. rewrite Hfield in Ht. by destruct (Hv t).
    + destruct v; simpl; eauto. by destruct (Hv s).
Qed.

End UntypedFacts.

(** X14: validation does not make the grouping safe.  On a document that
    [validate_config] accepts, [_parse_data] returns exactly when the
    title of every group is a string, whatever the labels are (a label
    that is no string matches no pull request); when some title is no
    string it raises [TypeError], and a run that has resolved a version
    and fetched pull requests ends with that exception before it opens
    the changelog, so that no file changes. *)
Theorem validated_titles (json_loads : string → result json)
    (self : ChangelogCI) (st st0 st1 : state) (version : string)
    (prs : list pull_request) :
  validate_config (config self) = Ok tt →
  ((∃ data, _parse_data (config self) prs = Ok data)
   ↔ string_titles (config self))
  ∧ (¬ string_titles (config self) →
     ∃ msg,
       _parse_data (config self) prs = Raise (TypeError msg)
       ∧ (_get_version_number json_loads self st = (Ok version, st0) →
          version ≠ "" →
          _get_pull_requests_after_last_release self st0 = (Ok prs, st1) →
          prs ≠ [] →
          write_changelog json_loads self st = (Raise (TypeError msg), st1)
          ∧ files st1 = files st)).
Proof.
  intros (d & Hdoc & _ & l & Hgc & Hl)%validate_config_ok.
  assert (string_titles (config self)
          ↔ Forall (λ g, ∃ t, Spec.field g "title" = JStr t) l) as Htitles.
  { unfold string_titles. rewrite Hdoc. simpl. rewrite Hgc. split.
    - intros H. by apply H.
    - by intros H l' [= <-]. }
  assert (_parse_data (config self) prs
          = if Py.truthy_list l then
              '(data, pool) ← parse_groups l prs [];
              if Py.truthy_list pool then
                Ok (data ++ [other_changes pool])
              else Ok data
            else Ok [{| title := ""; items := PyMap prs |}]) as Hparse.
  { unfold _parse_data. rewrite Hdoc. unfold dict_get in Hgc. simpl.
    destruct (d !! "group_config") as [v|]; simplify_eq/=. done. }
  destruct l as [|g l].
  { split.
    - rewrite Htitles. split; [done|]. intros _. rewrite Hparse. by eexists.
    - intros Hnot. destruct Hnot. by apply Htitles. }
  change (Py.truthy_list (g :: l)) with true in Hparse. cbv iota in Hparse.
  destruct (valid_groups_parse (g :: l) prs [] Hl)
    as [[Hall [[data pool] Hr]]|[Hnot [msg Hr]]]; rewrite Hr in Hparse.
  - split.
    + rewrite Htitles. split; [done|]. intros _. rewrite Hparse. simpl.
      destruct (Py.truthy_list pool); by eexists.
    + intros Hnot. destruct Hnot. by apply Htitles.
  - split.
    + rewrite Htitles. split; [|done]. intros [data Hdata].
      rewrite Hparse in Hdata. done.
    + intros _. exists msg. split; [exact Hparse|].
      intros Hv Hne Hfetch Hprs.
      destruct (write_changelog_reach _ _ _ _ _ _ _ Hv Hne Hfetch Hprs)
        as [Hf Hrun].
      split; [|done]. by rewrite Hrun, Hparse.
Qed.

(** The document with numbers for its titles and labels: validation
    accepts it, and the run ends with [TypeError] and the old changelog
    as it was. *)
Lemma validated_titles_witness :
  let self := Sample.ci Sample.untyped_config Sample.no_release
                (Sample.found [Sample.fix_crash]) in
  let st := Sample.old_file "Release 2.0.0 launch" in
  validate_config Sample.untyped_config = Ok tt
  ∧ ∃ msg,
      write_changelog Sample.loads self st
      = (Raise (TypeError msg), Sample.warned (Sample.read st))
      ∧ files (Sample.warned (Sample.read st)) = files st.
Proof.
  intros self st. split; [reflexivity|].
  destruct (validated_titles Sample.loads self st (Sample.read st)
              (Sample.warned (Sample.read st)) "2.0.0"
              [record_of_item Sample.fix_crash]) as [_ Hraise];
    [reflexivity|].
  destruct Hraise as (msg & _ & Hrun).
  - intros Htitles.
    specialize (Htitles _ eq_refl).
    apply Forall_singleton in Htitles as [t Ht]. discriminate Ht.
  - exists msg. apply Hrun.
    + vm_compute. reflexivity.
    + discriminate.
    + vm_compute. reflexivity.
    + discriminate.
Defined.
